(** * The book shelf API of [app.py]: a shallow embedding and its properties

    The Flask application keeps a catalog of books (SQLite tables [books],
    [authors], [book_author]) and their reviews (one MongoDB collection).
    This development embeds the five JSON routes of [create_app]

      - [list_books]    GET    /api/books
      - [add_book]      POST   /api/books
      - [get_reviews]   GET    /api/reviews
      - [add_review]    POST   /api/reviews
      - [delete_review] DELETE /api/reviews/<rid>

    as functions from a request and a store to a response and a store.

    Modelling conventions.
      - A text is a [string]; its characters are read as the code points
        U+0000..U+00FF.  Python's [str.strip], [str.lower] and [int] and
        SQLite's [NOCASE] and [LIKE] are written out on that range.
      - Python and SQLite integers are [Z]; the 64-bit limit of the two
        store drivers is outside the model.
      - A float is observed through its exact value (for [int] and for
        truthiness) and through the text [str] prints for it.
      - An exception nobody catches ends the request; Flask answers it with
        status 500.  It is the outcome [Uncaught].
      - The tables are those of [SCHEMA_SQL] with the unique index on
        [title COLLATE NOCASE] that [manage.py] creates.  Rows are kept in
        insertion order; [GROUP_CONCAT] lists names in the order of the
        links, and a sort keeps the scan order of rows that compare equal.
      - The clock ([now]) and the ObjectId of a new document ([fresh]) are
        inputs of [add_review]; an ObjectId is its printed form.
      - The audit side channel of [log_call] never changes a response and is
        left out. *)

From Stdlib Require Import String Ascii List ZArith QArith_base Lia Bool.
From Stdlib Require Import DecimalString Permutation Sorted.
Import ListNotations.

Set Warnings "-register-all".

Open Scope string_scope.
Open Scope Z_scope.

(* ================================================================== *)
(** * Python values and the coercions the handlers apply to them *)
(* ================================================================== *)

Module Py.

Definition code (c : ascii) : nat := nat_of_ascii c.

Definition between (lo hi n : nat) : bool := (Nat.leb lo n && Nat.leb n hi)%bool.

(** [str.isspace] on U+0000..U+00FF: TAB..CR, FS..US, SPACE, NEL, NBSP. *)
Definition isspace (c : ascii) : bool :=
  let n := code c in
  (between 9 13 n || between 28 32 n || Nat.eqb n 133 || Nat.eqb n 160)%bool.

Fixpoint lstrip (s : string) : string :=
  match s with
  | EmptyString => EmptyString
  | String c s' => if isspace c then lstrip s' else s
  end.

Fixpoint rstrip (s : string) : string :=
  match s with
  | EmptyString => EmptyString
  | String c s' =>
      match rstrip s' with
      | EmptyString => if isspace c then EmptyString else String c EmptyString
      | r => String c r
      end
  end.

(** [s.strip()] *)
Definition strip (s : string) : string := rstrip (lstrip s).

Fixpoint smap (f : ascii -> ascii) (s : string) : string :=
  match s with
  | EmptyString => EmptyString
  | String c s' => String (f c) (smap f s')
  end.

(** [str.lower] on U+0000..U+00FF: A..Z and the Latin-1 capitals. *)
Definition lower_char (c : ascii) : ascii :=
  let n := code c in
  if (between 65 90 n || (between 192 222 n && negb (Nat.eqb n 215)))%bool
  then ascii_of_nat (n + 32) else c.

Definition lower (s : string) : string := smap lower_char s.

(** [sub in s] for two texts. *)
Fixpoint prefix_by (eqc : ascii -> ascii -> bool) (p s : string) : bool :=
  match p, s with
  | EmptyString, _ => true
  | String _ _, EmptyString => false
  | String a p', String b s' => (eqc a b && prefix_by eqc p' s')%bool
  end.

Fixpoint contains_by (eqc : ascii -> ascii -> bool) (sub s : string) : bool :=
  (prefix_by eqc sub s ||
   match s with
   | EmptyString => false
   | String _ s' => contains_by eqc sub s'
   end)%bool.

Definition contains (sub s : string) : bool := contains_by Ascii.eqb sub s.

Fixpoint join (sep : string) (l : list string) : string :=
  match l with
  | [] => EmptyString
  | [x] => x
  | x :: rest => x ++ sep ++ join sep rest
  end.

(** ** [int(text)] *)

(** The blanks [int] skips around a numeral: TAB..CR and SPACE, and the
    two Latin-1 blanks, which it first rewrites to SPACE. *)
Definition int_space (c : ascii) : bool :=
  let n := code c in
  (between 9 13 n || Nat.eqb n 32 || Nat.eqb n 133 || Nat.eqb n 160)%bool.

Definition digit_of (c : ascii) : option Z :=
  let n := code c in
  if between 48 57 n then Some (Z.of_nat (n - 48)) else None.

Fixpoint all_chars (p : ascii -> bool) (s : string) : bool :=
  match s with
  | EmptyString => true
  | String c s' => (p c && all_chars p s')%bool
  end.

Fixpoint skip_chars (p : ascii -> bool) (s : string) : string :=
  match s with
  | EmptyString => EmptyString
  | String c s' => if p c then skip_chars p s' else s
  end.

(** After a digit: more digits, each optionally preceded by one
    underscore, then blanks up to the end.  [acc] is the value so far. *)
Fixpoint int_tail (acc : Z) (s : string) : option Z :=
  match s with
  | EmptyString => Some acc
  | String c s' =>
      match digit_of c with
      | Some d => int_tail (10 * acc + d) s'
      | None =>
          if Ascii.eqb c "_" then
            match s' with
            | EmptyString => None
            | String c2 s'' =>
                match digit_of c2 with
                | Some d => int_tail (10 * acc + d) s''
                | None => None
                end
            end
          else if all_chars int_space s then Some acc else None
      end
  end.

Definition int_unsigned (s : string) : option Z :=
  match s with
  | EmptyString => None
  | String c s' =>
      match digit_of c with
      | Some d => int_tail d s'
      | None => None
      end
  end.

(** [int(s)] for a text [s]; [None] is [ValueError]. *)
Definition int_of_text (s : string) : option Z :=
  match skip_chars int_space s with
  | String c r =>
      if Ascii.eqb c "+" then int_unsigned r
      else if Ascii.eqb c "-" then option_map Z.opp (int_unsigned r)
      else int_unsigned (String c r)
  | EmptyString => None
  end.

(** ** Values of a parsed JSON body *)

(** A float: its exact value ([None] for nan and the infinities) and the
    text [str] prints for it. *)
Record pyfloat := { fl_value : option Q; fl_text : string }.

Inductive json :=
| JNull
| JBool (b : bool)
| JInt (z : Z)
| JFloat (f : pyfloat)
| JStr (s : string)
| JList (l : list json)
| JObj (kv : list (string * json)).

(** Truth value of a Python object, as [or] and [not] test it. *)
Definition truthy (v : json) : bool :=
  match v with
  | JNull => false
  | JBool b => b
  | JInt z => negb (z =? 0)
  | JFloat f =>
      match fl_value f with
      | Some q => negb (Qnum q =? 0)
      | None => true
      end
  | JStr s => negb (String.eqb s "")
  | JList l => match l with [] => false | _ => true end
  | JObj kv => match kv with [] => false | _ => true end
  end.

(** [int(v)]; [None] is the [TypeError], [ValueError] or [OverflowError]
    that the handlers catch with [except Exception]. *)
Definition int (v : json) : option Z :=
  match v with
  | JNull => None
  | JBool b => Some (if b then 1 else 0)
  | JInt z => Some z
  | JFloat f =>
      match fl_value f with
      | Some q => Some (Z.quot (Qnum q) (Zpos (Qden q)))
      | None => None
      end
  | JStr s => int_of_text s
  | JList _ => None
  | JObj _ => None
  end.

(** [dict.get]: the first binding of the key. *)
Fixpoint get (kv : list (string * json)) (k : string) : option json :=
  match kv with
  | [] => None
  | (k', v) :: rest => if String.eqb k' k then Some v else get rest k
  end.

(** ** [repr] and [str] *)

Definition dquote : ascii := ascii_of_nat 34.
Definition squote : ascii := ascii_of_nat 39.
Definition backslash : ascii := ascii_of_nat 92.

Definition hex_digit (n : nat) : ascii :=
  if Nat.ltb n 10 then ascii_of_nat (48 + n) else ascii_of_nat (87 + n).

Definition printable (c : ascii) : bool :=
  let n := code c in
  (between 32 126 n || (between 161 255 n && negb (Nat.eqb n 173)))%bool.

Definition repr_char (quote c : ascii) : string :=
  let n := code c in
  if (Ascii.eqb c quote || Ascii.eqb c backslash)%bool
  then String backslash (String c EmptyString)
  else if Nat.eqb n 9 then String backslash "t"
  else if Nat.eqb n 10 then String backslash "n"
  else if Nat.eqb n 13 then String backslash "r"
  else if printable c then String c EmptyString
  else String backslash
         (String "x" (String (hex_digit (n / 16))
                        (String (hex_digit (n mod 16)) EmptyString))).

Fixpoint has_char (c : ascii) (s : string) : bool :=
  match s with
  | EmptyString => false
  | String a s' => (Ascii.eqb a c || has_char c s')%bool
  end.

Fixpoint repr_chars (quote : ascii) (s : string) : string :=
  match s with
  | EmptyString => EmptyString
  | String c s' => repr_char quote c ++ repr_chars quote s'
  end.

Definition repr_text (s : string) : string :=
  let quote :=
    if (has_char squote s && negb (has_char dquote s))%bool
    then dquote else squote in
  String quote (repr_chars quote s ++ String quote EmptyString).

Definition repr_int (z : Z) : string := NilZero.string_of_int (Z.to_int z).

Fixpoint repr (v : json) : string :=
  match v with
  | JNull => "None"
  | JBool true => "True"
  | JBool false => "False"
  | JInt z => repr_int z
  | JFloat f => fl_text f
  | JStr s => repr_text s
  | JList l => "[" ++ join ", " (map repr l) ++ "]"
  | JObj kv =>
      "{" ++ join ", "
               (map (fun p => repr_text (fst p) ++ ": " ++ repr (snd p)) kv)
          ++ "}"
  end.

(** [str(v)] *)
Definition str (v : json) : string :=
  match v with
  | JStr s => s
  | _ => repr v
  end.

End Py.


(* ================================================================== *)
(** * Sorting, as the two stores order their results *)
(* ================================================================== *)

Section Sort.
Context {A : Type} (leb : A -> A -> bool).


End Sort.

(* ================================================================== *)
(** * The catalog store: SQLite tables [books], [authors], [book_author] *)
(* ================================================================== *)

Module Sqlite.

(** ** Collation [NOCASE] and the operator [LIKE] *)

(** Both fold the 26 letters A..Z and nothing else. *)
Definition fold_char (c : ascii) : ascii :=
  let n := Py.code c in
  if Py.between 65 90 n then ascii_of_nat (n + 32) else c.

Definition fold (s : string) : string := Py.smap fold_char s.

(** [a = b COLLATE NOCASE] *)
Definition nocase_eqb (a b : string) : bool := String.eqb (fold a) (fold b).



Definition like_eq (a b : ascii) : bool :=
  Ascii.eqb (fold_char a) (fold_char b).


(** ** Tables *)

Record book := {
  book_id : Z;
  title : string;
  publication_year : option Z;
  image_url : option string }.

Record author := { author_id : Z; name : string }.

(** Rows are kept in insertion order; a [book_author] row is the pair
    [(book_id, author_id)]. *)
Record catalog := {
  books : list book;
  authors : list author;
  book_author : list (Z * Z) }.

(** The rowid SQLite gives a new row of an [INTEGER PRIMARY KEY] table. *)
Definition next_rowid (ids : list Z) : Z :=
  match ids with
  | [] => 1
  | i :: rest => 1 + fold_right Z.max i rest
  end.

(** ** Statements of [add_book] and [add_review] *)

(** [INSERT OR IGNORE INTO authors(name) VALUES(?)]; [name] is UNIQUE. *)
Definition insert_or_ignore_author (n : string) (db : catalog) : catalog :=
  if existsb (fun a => String.eqb (name a) n) (authors db) then db
  else {| books := books db;
          authors := authors db ++
                     [{| author_id := next_rowid (map author_id (authors db));
                         name := n |}];
          book_author := book_author db |}.

(** [SELECT author_id FROM authors WHERE name = ?], [fetchone()] *)
Definition select_author_id (n : string) (db : catalog) : option Z :=
  option_map author_id
    (find (fun a => String.eqb (name a) n) (authors db)).

(** [SELECT book_id FROM books WHERE title = ? COLLATE NOCASE], [fetchone()] *)
Definition select_book_id (t : string) (db : catalog) : option Z :=
  option_map book_id (find (fun b => nocase_eqb (title b) t) (books db)).

(** [COALESCE(?, column)] *)
Definition coalesce {A : Type} (new old : option A) : option A :=
  match new with
  | Some _ => new
  | None => old
  end.

(** [UPDATE books SET publication_year = COALESCE(?, publication_year),
    image_url = COALESCE(?, image_url) WHERE book_id = ?] *)
Definition update_book (year : option Z) (image : option string) (bid : Z)
    (db : catalog) : catalog :=
  {| books :=
       map (fun b =>
              if book_id b =? bid
              then {| book_id := book_id b;
                      title := title b;
                      publication_year := coalesce year (publication_year b);
                      image_url := coalesce image (image_url b) |}
              else b) (books db);
     authors := authors db;
     book_author := book_author db |}.

(** [INSERT OR IGNORE INTO book_author(book_id, author_id) VALUES(?,?)];
    the pair is the primary key. *)
Definition insert_or_ignore_link (bid aid : Z) (db : catalog) : catalog :=
  if existsb (fun l => (fst l =? bid) && (snd l =? aid))%bool (book_author db)
  then db
  else {| books := books db;
          authors := authors db;
          book_author := book_author db ++ [(bid, aid)] |}.

(** [INSERT INTO books(title, publication_year, image_url) VALUES(?,?,?)]
    and [cur.lastrowid].  The unique index on [title COLLATE NOCASE]
    refuses a title that is already there: [None] is
    [sqlite3.IntegrityError]. *)
Definition insert_book (t : string) (year : option Z) (image : option string)
    (db : catalog) : option (Z * catalog) :=
  if existsb (fun b => nocase_eqb (title b) t) (books db) then None
  else
    let bid := next_rowid (map book_id (books db)) in
    Some (bid,
          {| books := books db ++
                      [{| book_id := bid; title := t;
                          publication_year := year; image_url := image |}];
             authors := authors db;
             book_author := book_author db |}).

(** [SELECT 1 FROM books WHERE book_id = ?], [fetchone()] as a truth value *)
Definition book_exists (bid : Z) (db : catalog) : bool :=
  existsb (fun b => book_id b =? bid) (books db).

(** ** The joined query of [list_books] and [add_book] *)

(** One result row:
    [b.book_id, b.title, b.publication_year, COALESCE(b.image_url, ?),
     GROUP_CONCAT(a.name, ', ')]. *)
Record book_row := {
  r_book_id : Z;
  r_title : string;
  r_publication_year : option Z;
  r_image_url : string;
  r_authors : option string }.

(** [LEFT JOIN authors a ON a.author_id = ba.author_id] for one link:
    the names found, or one NULL. *)
Definition join_authors (table : list author) (aid : Z)
    : list (option string) :=
  match filter (fun a => author_id a =? aid) table with
  | [] => [None]
  | found => map (fun a => Some (name a)) found
  end.

(** [books b LEFT JOIN book_author ba ... LEFT JOIN authors a ...] for one
    book: the [a.name] column of its joined rows, in link order. *)
Definition joined (db : catalog) (b : book) : list (option string) :=
  match filter (fun l => fst l =? book_id b) (book_author db) with
  | [] => [None]
  | links => flat_map (fun l => join_authors (authors db) (snd l)) links
  end.

Fixpoint non_null {A : Type} (l : list (option A)) : list A :=
  match l with
  | [] => []
  | Some x :: rest => x :: non_null rest
  | None :: rest => non_null rest
  end.

(** [GROUP_CONCAT(a.name, ', ')]: NULL names are skipped, and the result is
    NULL when nothing is left. *)
Definition group_concat (names : list (option string)) : option string :=
  match non_null names with
  | [] => None
  | l => Some (Py.join ", " l)
  end.

Definition default_to (d : string) (o : option string) : string :=
  match o with
  | Some s => s
  | None => d
  end.

(** [SELECT ... WHERE cond GROUP BY b.book_id, ...]: one row per book that
    keeps a joined row under [cond], aggregated over the rows it keeps. *)
Definition select_grouped (cover : string)
    (cond : book -> option string -> bool) (db : catalog) : list book_row :=
  flat_map
    (fun b =>
       match filter (cond b) (joined db b) with
       | [] => []
       | kept =>
           [{| r_book_id := book_id b;
               r_title := title b;
               r_publication_year := publication_year b;
               r_image_url := default_to cover (image_url b);
               r_authors := group_concat kept |}]
       end)
    (books db).



End Sqlite.

(* ================================================================== *)
(** * The review store: one MongoDB collection *)
(* ================================================================== *)

Module Mongo.

(** A review document as [add_review] writes it.  [oid] is the [_id], an
    ObjectId in its printed form (24 lower-case hexadecimal digits);
    [created_at] is the instant of insertion, counted in the store's
    unit of time. *)
Record review := {
  oid : string;
  book_id : Z;
  reviewer : string;
  rating : Z;
  text : string;
  created_at : Z }.

Definition collection := list review.

Definition is_hex (c : ascii) : bool :=
  let n := Py.code c in
  (Py.between 48 57 n || Py.between 97 102 n || Py.between 65 70 n)%bool.

(** [ObjectId(rid)] for a text: 24 hexadecimal digits, or [None] for
    [InvalidId]. *)
Definition object_id (rid : string) : option string :=
  if (Nat.eqb (String.length rid) 24 && Py.all_chars is_hex rid)%bool
  then Some (Py.lower rid) else None.



(** [coll.insert_one(doc)]; [None] is [DuplicateKeyError] on [_id]. *)
Definition insert_one (d : review) (c : collection) : option collection :=
  if existsb (fun x => String.eqb (oid x) (oid d)) c then None
  else Some (c ++ [d])%list.

(** [coll.find_one({"_id": id})] *)
Definition find_one (id : string) (c : collection) : option review :=
  find (fun d => String.eqb (oid d) id) c.

(** [coll.delete_one({"_id": id})]: the count deleted and what is left. *)
Fixpoint delete_one (id : string) (c : collection) : Z * collection :=
  match c with
  | [] => (0, [])
  | d :: rest =>
      if String.eqb (oid d) id then (1, rest)
      else let (n, rest') := delete_one id rest in (n, d :: rest')
  end.

End Mongo.

(* ================================================================== *)
(** * The routes of [create_app] *)
(* ================================================================== *)

Import Py.

Inductive exn :=
| AttributeError
| TypeError
| KeyError
| IntegrityError
| DuplicateKeyError.

(** A computation that returns or raises. *)
Inductive result (A : Type) :=
| Ok (a : A)
| Raise (e : exn).
Arguments Ok {A} a.
Arguments Raise {A} e.

Definition bind {A B : Type} (r : result A) (k : A -> result B) : result B :=
  match r with
  | Ok a => k a
  | Raise e => Raise e
  end.

Notation "x <- r ;; k" := (bind r (fun x => k))
  (at level 61, r at next level, right associativity).

(** The review as [_serialize_review] returns it. *)
Record review_json := {
  j_id : string;
  j_book_id : Z;
  j_reviewer : string;
  j_rating : Z;
  j_text : string;
  j_created_at : Z }.

(** The JSON bodies the routes answer with. *)
Inductive body :=
| Error (error : string)
| Books (items : list Sqlite.book_row) (count : nat)
| BookMessage (message : string) (book : Sqlite.book_row)
| Reviews (items : list review_json) (count : nat)
| ReviewMessage (message : string) (review : review_json)
| Deleted (deleted : Z).

Inductive outcome :=
| Reply (status : Z) (b : body)
| Uncaught (e : exn).

Definition DEFAULT_COVER : string :=
  "https://images.rawpixel.com/image_png_social_landscape/" ++
  "czNmcy1wcml2YXRlL3Jhd3BpeGVsX2ltYWdlcy93ZWJzaXRlX2NvbnRlbnQv" ++
  "bHIvam9iNjgzLTAwMzEucG5n.png".


(** [request.get_json(force=True, silent=True) or {}]; a body that does
    not parse is [JNull]. *)
Definition body_or_empty (payload : json) : json :=
  if truthy payload then payload else JObj [].

(** [data.get(k)]: only a dict has the method. *)
Definition data_get (data : json) (k : string) : result (option json) :=
  match data with
  | JObj kv => Ok (get kv k)
  | _ => Raise AttributeError
  end.

(** [(data.get(k) or "").strip()]: only a text has the method. *)
Definition stripped_field (data : json) (k : string) : result string :=
  v <- data_get data k ;;
  match v with
  | Some (JStr s) => Ok (strip s)
  | Some x => if truthy x then Raise AttributeError else Ok (strip "")
  | None => Ok (strip "")
  end.

(** ** GET /api/books *)





(** ** POST /api/books *)

(** [SELECT ... WHERE b.book_id = ? GROUP BY ...], [fetchone()] *)
Definition fetch_book (bid : Z) (db : Sqlite.catalog)
    : option Sqlite.book_row :=
  hd_error
    (Sqlite.select_grouped DEFAULT_COVER
       (fun b _ => Sqlite.book_id b =? bid) db).

(** The branch [if row:] of [add_book]: the title is already there. *)
Definition update_existing (bid aid year : Z) (image : option string)
    (db : Sqlite.catalog) : outcome * Sqlite.catalog :=
  let db' :=
    Sqlite.insert_or_ignore_link bid aid
      (Sqlite.update_book (Some year) image bid db) in
  match fetch_book bid db' with
  | Some row =>
      (Reply 200
         (BookMessage "Book already existed; updated/linked author." row),
       db')
  | None => (Uncaught TypeError, db')
  end.

(** The rest of [add_book], from [# Inserting new book] on.  Nothing is
    committed before [db.commit()]: when the INSERT raises, the request
    leaves the store as [committed]. *)
Definition insert_new (committed : Sqlite.catalog) (t : string)
    (aid year : Z) (image : option string) (db : Sqlite.catalog)
    : outcome * Sqlite.catalog :=
  match Sqlite.insert_book t (Some year) image db with
  | None => (Uncaught IntegrityError, committed)
  | Some (bid, db1) =>
      let db2 := Sqlite.insert_or_ignore_link bid aid db1 in
      match fetch_book bid db2 with
      | Some row => (Reply 201 (BookMessage "Book added successfully" row), db2)
      | None => (Uncaught TypeError, db2)
      end
  end.

(** [add_book] once the request is validated: ensure the author, look the
    title up, then update or insert. *)
Definition upsert (t a : string) (year : Z) (image : option string)
    (db : Sqlite.catalog) : outcome * Sqlite.catalog :=
  let db1 := Sqlite.insert_or_ignore_author a db in
  match Sqlite.select_author_id a db1 with
  | None => (Uncaught TypeError, db)
  | Some aid =>
      match Sqlite.select_book_id t db1 with
      | Some bid => update_existing bid aid year image db1
      | None => insert_new db t aid year image db1
      end
  end.

(** The first four statements of [add_book]: the trimmed title and
    author, the year as sent ([None] when the key is absent) and the
    trimmed image address. *)
Definition book_fields (data : json)
    : result (string * string * option json * string) :=
  t <- stripped_field data "title" ;;
  a <- stripped_field data "author" ;;
  y <- data_get data "publication_year" ;;
  i <- stripped_field data "image_url" ;;
  Ok (t, a, y, i).

(** What [dict.get] hands to [int]: the value, or Python's [None]. *)
Definition or_none (v : option json) : json :=
  match v with
  | Some x => x
  | None => JNull
  end.

Definition add_book (payload : json) (db : Sqlite.catalog)
    : outcome * Sqlite.catalog :=
  match book_fields (body_or_empty payload) with
  | Raise e => (Uncaught e, db)
  | Ok (t, a, y, i) =>
      let image := if String.eqb i "" then None else Some i in
      if (String.eqb t "" || String.eqb a "")%bool
      then (Reply 400 (Error "title and author required"), db)
      else
        match int (or_none y) with
        | None =>
            (Reply 400 (Error "publication_year must be an integer"), db)
        | Some year => upsert t a year image db
        end
  end.

(** ** GET /api/reviews *)

Definition serialize_review (doc : Mongo.review) : review_json :=
  {| j_id := Mongo.oid doc;
     j_book_id := Mongo.book_id doc;
     j_reviewer := Mongo.reviewer doc;
     j_rating := Mongo.rating doc;
     j_text := Mongo.text doc;
     j_created_at := Mongo.created_at doc |}.


(** ** POST /api/reviews *)

(** [field not in data or
     (isinstance(data[field], str) and not data[field].strip())] *)
Definition field_missing (data : json) (field : string) : result bool :=
  match data with
  | JObj kv =>
      match get kv field with
      | None => Ok true
      | Some (JStr s) => Ok (String.eqb (strip s) "")
      | Some _ => Ok false
      end
  | JList l =>
      if existsb (fun v => match v with
                           | JStr s => String.eqb s field
                           | _ => false
                           end) l
      then Raise TypeError else Ok true
  | JStr s => if contains field s then Raise TypeError else Ok true
  | _ => Raise TypeError
  end.

(** The validation loop: the first field found missing, if any. *)
Fixpoint first_missing (data : json) (fields : list string)
    : result (option string) :=
  match fields with
  | [] => Ok None
  | f :: rest =>
      m <- field_missing data f ;;
      if (m : bool) then Ok (Some f) else first_missing data rest
  end.

(** [data[k]] *)
Definition data_item (data : json) (k : string) : result json :=
  match data with
  | JObj kv =>
      match get kv k with
      | Some v => Ok v
      | None => Raise KeyError
      end
  | _ => Raise TypeError
  end.

(** The [try] block: [None] is its [except Exception] branch. *)
Definition parse_ids (data : json) : option (Z * Z) :=
  match data_item data "book_id" with
  | Ok v =>
      match int v with
      | Some book_id =>
          match data_item data "rating" with
          | Ok w =>
              match int w with
              | Some rating =>
                  if ((rating <? 1) || (rating >? 5))%bool then None
                  else Some (book_id, rating)
              | None => None
              end
          | Raise _ => None
          end
      | None => None
      end
  | Raise _ => None
  end.

(** The fields the validation loop walks through, in its order. *)
Definition review_fields : list string :=
  ["book_id"; "reviewer"; "rating"; "text"].

(** [now] is [datetime.now(timezone.utc)] at the insertion and [fresh] the
    ObjectId the driver generates for the new document. *)
Definition add_review (now : Z) (fresh : string) (payload : json)
    (db : Sqlite.catalog) (coll : Mongo.collection)
    : outcome * Mongo.collection :=
  let data := body_or_empty payload in
  match first_missing data review_fields with
  | Raise e => (Uncaught e, coll)
  | Ok (Some f) => (Reply 400 (Error (f ++ " is required")), coll)
  | Ok None =>
      match parse_ids data with
      | None =>
          (Reply 400
             (Error "rating must be integer 1-5 and book_id integer"),
           coll)
      | Some (book_id, rating) =>
          if negb (Sqlite.book_exists book_id db)
          then (Reply 404 (Error "book_id does not exist"), coll)
          else
            match
              (r <- data_item data "reviewer" ;;
               t <- data_item data "text" ;;
               Ok (r, t))
            with
            | Raise e => (Uncaught e, coll)
            | Ok (r, t) =>
                let doc :=
                  {| Mongo.oid := fresh;
                     Mongo.book_id := book_id;
                     Mongo.reviewer := strip (str r);
                     Mongo.rating := rating;
                     Mongo.text := strip (str t);
                     Mongo.created_at := now |} in
                match Mongo.insert_one doc coll with
                | None => (Uncaught DuplicateKeyError, coll)
                | Some coll' =>
                    match Mongo.find_one fresh coll' with
                    | Some saved =>
                        (Reply 201
                           (ReviewMessage "Review added"
                              (serialize_review saved)),
                         coll')
                    | None => (Uncaught AttributeError, coll')
                    end
                end
            end
      end
  end.

(** ** DELETE /api/reviews/<rid> *)

Definition delete_review (rid : string) (coll : Mongo.collection)
    : outcome * Mongo.collection :=
  match Mongo.object_id rid with
  | None => (Reply 400 (Error "invalid review id"), coll)
  | Some id =>
      let (n, coll') := Mongo.delete_one id coll in
      (Reply 200 (Deleted n), coll')
  end.

(* ================================================================== *)
(** * The seeding script [manage.py] *)
(* ================================================================== *)

Module Manage.



(** [UPDATE books SET publication_year = ?,
    image_url = COALESCE(?, image_url) WHERE book_id = ?] *)
Definition update_book (year : Z) (image : option string) (bid : Z)
    (db : Sqlite.catalog) : Sqlite.catalog :=
  {| Sqlite.books :=
       map (fun b =>
              if Sqlite.book_id b =? bid
              then {| Sqlite.book_id := Sqlite.book_id b;
                      Sqlite.title := Sqlite.title b;
                      Sqlite.publication_year := Some year;
                      Sqlite.image_url :=
                        Sqlite.coalesce image (Sqlite.image_url b) |}
              else b) (Sqlite.books db);
     Sqlite.authors := Sqlite.authors db;
     Sqlite.book_author := Sqlite.book_author db |}.




End Manage.

(* ================================================================== *)
(** * Notions the statements below use *)
(* ================================================================== *)

(** [q] occurs in [s] up to the case of the letters A..Z. *)
Definition nocase_in (q s : string) : bool :=
  contains_by Sqlite.like_eq q s.


(** The names of the authors linked to a book, in link order. *)
Definition author_names (db : Sqlite.catalog) (b : Sqlite.book)
    : list string :=
  Sqlite.non_null (Sqlite.joined db b).


(** The constraints of the schema: the three primary keys, the UNIQUE
    author name, the unique index on [title COLLATE NOCASE] and the two
    foreign keys of [book_author]. *)
Record catalog_ok (db : Sqlite.catalog) : Prop := {
  ok_book_ids : NoDup (map Sqlite.book_id (Sqlite.books db));
  ok_author_ids : NoDup (map Sqlite.author_id (Sqlite.authors db));
  ok_names : NoDup (map Sqlite.name (Sqlite.authors db));
  ok_titles :
    NoDup (map (fun b => Sqlite.fold (Sqlite.title b)) (Sqlite.books db));
  ok_links : NoDup (Sqlite.book_author db);
  ok_link_book :
    forall l, In l (Sqlite.book_author db) ->
              In (fst l) (map Sqlite.book_id (Sqlite.books db));
  ok_link_author :
    forall l, In l (Sqlite.book_author db) ->
              In (snd l) (map Sqlite.author_id (Sqlite.authors db)) }.


(** The [_id] index of the collection: no two documents share an id. *)
Definition ids_unique (coll : Mongo.collection) : Prop :=
  NoDup (map Mongo.oid coll).


(** A field of a review request that the validation loop refuses: absent,
    or a text that is blank. *)
Definition absent_or_blank (kv : list (string * json)) (f : string) : bool :=
  match get kv f with
  | None => true
  | Some (JStr s) => String.eqb (strip s) ""
  | Some _ => false
  end.

(** ** Notions of the statements about the stores *)


(** The document [add_review] builds from a validated request. *)
Definition review_doc (now : Z) (fresh : string) (b rating : Z)
    (r t : json) : Mongo.review :=
  {| Mongo.oid := fresh;
     Mongo.book_id := b;
     Mongo.reviewer := strip (str r);
     Mongo.rating := rating;
     Mongo.text := strip (str t);
     Mongo.created_at := now |}.

(** The result row of a book whose kept joined rows carry [names]. *)
Definition row_of (b : Sqlite.book) (names : list (option string))
    : Sqlite.book_row :=
  {| Sqlite.r_book_id := Sqlite.book_id b;
     Sqlite.r_title := Sqlite.title b;
     Sqlite.r_publication_year := Sqlite.publication_year b;
     Sqlite.r_image_url := Sqlite.default_to DEFAULT_COVER (Sqlite.image_url b);
     Sqlite.r_authors := Sqlite.group_concat names |}.

(** The row of [b] after [UPDATE books SET ...] with a year and an
    optional image address. *)
Definition updated (b : Sqlite.book) (year : Z) (image : option string)
    : Sqlite.book :=
  {| Sqlite.book_id := Sqlite.book_id b;
     Sqlite.title := Sqlite.title b;
     Sqlite.publication_year := Some year;
     Sqlite.image_url := Sqlite.coalesce image (Sqlite.image_url b) |}.

(** The book [INSERT INTO books] adds for a new title. *)
Definition inserted (db : Sqlite.catalog) (t : string) (year : Z)
    (image : option string) : Sqlite.book :=
  {| Sqlite.book_id := Sqlite.next_rowid (map Sqlite.book_id (Sqlite.books db));
     Sqlite.title := t;
     Sqlite.publication_year := Some year;
     Sqlite.image_url := image |}.

(** Every stored review has a rating from 1 to 5 and the [book_id] of a
    book of the catalog. *)
Definition reviews_ok (db : Sqlite.catalog) (coll : Mongo.collection)
    : Prop :=
  forall d, In d coll ->
            (1 <= Mongo.rating d <= 5) /\
            (Sqlite.book_exists (Mongo.book_id d) db = true).



(** A store that only grew: the books kept their ids and titles, and at
    most one book, one author and one link were appended. *)
Definition grew (db db' : Sqlite.catalog) : Prop :=
  exists new_books new_authors new_links,
    map Sqlite.book_id (Sqlite.books db') =
      (map Sqlite.book_id (Sqlite.books db) ++
       map Sqlite.book_id new_books)%list /\
    map Sqlite.title (Sqlite.books db') =
      (map Sqlite.title (Sqlite.books db) ++
       map Sqlite.title new_books)%list /\
    Sqlite.authors db' = (Sqlite.authors db ++ new_authors)%list /\
    Sqlite.book_author db' = (Sqlite.book_author db ++ new_links)%list /\
    (length new_books <= 1)%nat /\ (length new_authors <= 1)%nat /\
    (length new_links <= 1)%nat.

(* ================================================================== *)
(** * Sample requests and stores *)
(* ================================================================== *)


(** A catalog with the one book of the specification's scenario. *)
Definition dune_catalog : Sqlite.catalog :=
  {| Sqlite.books :=
       [{| Sqlite.book_id := 1; Sqlite.title := "Dune";
           Sqlite.publication_year := Some 1965;
           Sqlite.image_url := None |}];
     Sqlite.authors :=
       [{| Sqlite.author_id := 1; Sqlite.name := "Frank Herbert" |}];
     Sqlite.book_author := [(1, 1)] |}.

(** The float 4.5, as [json.loads] reads the numeral [4.5]. *)
Definition four_and_a_half : json :=
  JFloat {| fl_value := Some (Qmake 9 2); fl_text := "4.5" |}.

Definition fractional_rating_request : json :=
  JObj [("book_id", JInt 1); ("reviewer", JStr "Ann");
        ("rating", four_and_a_half); ("text", JStr "Good")].


Definition padded_reviewer_request : json :=
  JObj [("book_id", JInt 1); ("reviewer", JStr " Bob ");
        ("rating", JInt 5); ("text", JStr "Nice")].

Definition bob_review : Mongo.review :=
  {| Mongo.oid := "64b7f0a1c2d3e4f5a6b7c8d9"; Mongo.book_id := 1;
     Mongo.reviewer := "Bob"; Mongo.rating := 5; Mongo.text := "Nice";
     Mongo.created_at := 100 |}.

Definition null_reviewer_request : json :=
  JObj [("book_id", JInt 1); ("reviewer", JNull);
        ("rating", JInt 3); ("text", JStr "Fine")].


Definition dune_again_request : json :=
  JObj [("title", JStr "dune"); ("author", JStr "Other Name");
        ("publication_year", JInt 1966)].










(* ================================================================== *)
(** * Facts about the sort *)
(* ================================================================== *)

Section SortFacts.
Context {A : Type} (leb : A -> A -> bool).
Hypothesis leb_total : forall x y, leb x y = true \/ leb y x = true.
Hypothesis leb_trans :
  forall x y z, leb x y = true -> leb y z = true -> leb x z = true.




End SortFacts.



(* ================================================================== *)
(** * GET /api/reviews *)
(* ================================================================== *)




Lemma int_of_text_nonempty (s : string) (n : Z) :
  int_of_text s = Some n -> s <> "".
Proof. intros H ->. discriminate H. Qed.






(* ================================================================== *)
(** * DELETE /api/reviews/<rid> *)
(* ================================================================== *)

Lemma delete_one_cases (id : string) (c : Mongo.collection) :
  (exists before d after,
     c = (before ++ d :: after)%list /\ Mongo.oid d = id /\
     ~ In id (map Mongo.oid before) /\
     Mongo.delete_one id c = (1, (before ++ after)%list)) \/
  (~ In id (map Mongo.oid c) /\ Mongo.delete_one id c = (0, c)).
Proof.
  induction c as [|d c IH]; simpl.
  - right. split; [tauto | reflexivity].
  - destruct (String.eqb_spec (Mongo.oid d) id) as [E|NE].
    + left. exists [], d, c. simpl. repeat split; [exact E | tauto].
    + destruct IH as [[before [d' [after [Hc [Hd [Hn Hdel]]]]]]|[Hn Hdel]].
      * left. exists (d :: before), d', after. rewrite Hdel. simpl.
        repeat split; [rewrite Hc; reflexivity | exact Hd | tauto].
      * right. rewrite Hdel. split; [tauto | reflexivity].
Qed.



(* ================================================================== *)
(** * Blank texts *)
(* ================================================================== *)

Lemma lstrip_cases (s : string) :
  (lstrip s = "" /\ all_chars isspace s = true) \/
  (exists c s', lstrip s = String c s' /\ isspace c = false).
Proof.
  induction s as [|c s IH]; simpl.
  - left. split; reflexivity.
  - destruct (isspace c) eqn:E.
    + destruct IH as [[H1 H2]|H]; [left; split; assumption | right; exact H].
    + right. exists c, s. split; [reflexivity | exact E].
Qed.

Lemma rstrip_keeps_head (c : ascii) (s : string) :
  isspace c = false -> rstrip (String c s) <> "".
Proof.
  intros E. simpl. destruct (rstrip s); [rewrite E|]; discriminate.
Qed.

Lemma strip_blank (s : string) :
  strip s = "" -> all_chars isspace s = true.
Proof.
  unfold strip. intros H.
  destruct (lstrip_cases s) as [[_ Hall]|[c [s' [Hl Hc]]]]; [exact Hall|].
  rewrite Hl in H. exfalso. exact (rstrip_keeps_head c s' Hc H).
Qed.

Lemma skip_chars_cases (p : ascii -> bool) (s : string) :
  all_chars isspace s = true ->
  skip_chars p s = "" \/
  exists c r, skip_chars p s = String c r /\ p c = false /\ isspace c = true.
Proof.
  induction s as [|c s IH]; simpl; intros H.
  - left. reflexivity.
  - apply andb_true_iff in H. destruct H as [Hc Hs].
    destruct (p c) eqn:E.
    + apply IH, Hs.
    + right. exists c, s. auto.
Qed.

Lemma blank_not_numeral (c : ascii) :
  isspace c = true -> int_space c = false ->
  Ascii.eqb c "+" = false /\ Ascii.eqb c "-" = false /\ digit_of c = None.
Proof.
  destruct c as [b0 b1 b2 b3 b4 b5 b6 b7].
  destruct b0, b1, b2, b3, b4, b5, b6, b7; vm_compute;
    intros H1 H2; try discriminate; auto.
Qed.

(** [int] refuses a text that [strip] empties. *)
Lemma int_of_blank (s : string) : strip s = "" -> int_of_text s = None.
Proof.
  intros H. apply strip_blank in H. unfold int_of_text.
  destruct (skip_chars_cases int_space s H) as [->|[c [r [-> [H1 H2]]]]].
  - reflexivity.
  - destruct (blank_not_numeral c H2 H1) as [E1 [E2 E3]].
    rewrite E1, E2. unfold int_unsigned. rewrite E3. reflexivity.
Qed.

(* ================================================================== *)
(** * POST /api/reviews *)
(* ================================================================== *)

Lemma field_missing_obj (kv : list (string * json)) (f : string) :
  field_missing (JObj kv) f = Ok (absent_or_blank kv f).
Proof.
  unfold field_missing, absent_or_blank.
  destruct (get kv f) as [[]|]; reflexivity.
Qed.

Lemma first_missing_obj (kv : list (string * json)) (fields : list string) :
  first_missing (JObj kv) fields = Ok (find (absent_or_blank kv) fields).
Proof.
  induction fields as [|f fields IH]; [reflexivity|].
  change (first_missing (JObj kv) (f :: fields))
    with (bind (field_missing (JObj kv) f)
            (fun m : bool =>
               if m then Ok (Some f) else first_missing (JObj kv) fields)).
  rewrite field_missing_obj. simpl.
  destruct (absent_or_blank kv f); [reflexivity | exact IH].
Qed.

Lemma find_one_inserted (d : Mongo.review) (c c' : Mongo.collection) :
  Mongo.insert_one d c = Some c' ->
  c' = (c ++ [d])%list /\ Mongo.find_one (Mongo.oid d) c' = Some d /\
  ~ In (Mongo.oid d) (map Mongo.oid c).
Proof.
  unfold Mongo.insert_one.
  destruct (existsb _ c) eqn:E; [discriminate|].
  intros H. inversion H; subst c'. clear H.
  split; [reflexivity|]. unfold Mongo.find_one.
  induction c as [|x c IH]; simpl in *.
  - rewrite String.eqb_refl. split; [reflexivity | tauto].
  - apply orb_false_iff in E. destruct E as [Ex Ec].
    rewrite Ex. destruct (IH Ec) as [IH1 IH2]. split; [exact IH1|].
    intros [H|H]; [|exact (IH2 H)].
    rewrite H, String.eqb_refl in Ex. discriminate.
Qed.

Lemma insert_one_fresh (d : Mongo.review) (c : Mongo.collection) :
  ~ In (Mongo.oid d) (map Mongo.oid c) ->
  Mongo.insert_one d c = Some (c ++ [d])%list.
Proof.
  intros Hn. unfold Mongo.insert_one.
  destruct (existsb _ c) eqn:E; [|reflexivity].
  exfalso. apply Hn. apply existsb_exists in E.
  destruct E as [x [Hx Ex]]. apply String.eqb_eq in Ex.
  rewrite <- Ex. apply in_map, Hx.
Qed.

(** Whatever the request, a response other than 201 leaves the collection
    as it was. *)
Lemma add_review_keeps_store (now : Z) (fresh : string) (payload : json)
    (db : Sqlite.catalog) (coll coll' : Mongo.collection) (out : outcome) :
  add_review now fresh payload db coll = (out, coll') ->
  coll' = coll \/ exists rv, out = Reply 201 (ReviewMessage "Review added" rv).
Proof.
  unfold add_review.
  destruct (first_missing _ _) as [[f|]|e];
    try (intros H; inversion H; left; reflexivity).
  destruct (parse_ids _) as [[b r]|];
    try (intros H; inversion H; left; reflexivity).
  destruct (negb _);
    try (intros H; inversion H; left; reflexivity).
  destruct (bind _ _) as [[rv tv]|e];
    try (intros H; inversion H; left; reflexivity).
  destruct (Mongo.insert_one _ coll) as [c1|] eqn:Ei;
    try (intros H; inversion H; left; reflexivity).
  apply find_one_inserted in Ei. simpl in Ei.
  destruct Ei as [_ [Ef _]]. rewrite Ef.
  intros H; inversion H. right. eauto.
Qed.

(** The [try] block of [add_review] on a body that has both keys. *)
Lemma parse_ids_obj (kv : list (string * json)) (v w : json) :
  get kv "book_id" = Some v -> get kv "rating" = Some w ->
  parse_ids (JObj kv) =
  match int v, int w with
  | Some b, Some r =>
      if ((r <? 1) || (r >? 5))%bool then None else Some (b, r)
  | _, _ => None
  end.
Proof.
  intros Hv Hw. unfold parse_ids, data_item. rewrite Hv, Hw.
  destruct (int v); [|reflexivity]. destruct (int w); reflexivity.
Qed.

Lemma present_not_blank (kv : list (string * json)) (f : string) (v : json)
    (n : Z) :
  get kv f = Some v -> int v = Some n -> absent_or_blank kv f = false.
Proof.
  intros Hv Hn. unfold absent_or_blank. rewrite Hv.
  destruct v; try reflexivity.
  destruct (String.eqb_spec (strip s) "") as [E|_]; [|reflexivity].
  simpl in Hn. rewrite (int_of_blank s E) in Hn. discriminate.
Qed.

Lemma rating_in_range (r : Z) :
  ((r <? 1) || (r >? 5))%bool = false <-> 1 <= r <= 5.
Proof.
  rewrite orb_false_iff, Z.ltb_ge, Z.gtb_ltb, Z.ltb_ge. lia.
Qed.

(** What a request that passes every check does. *)
Lemma add_review_accepted (now : Z) (fresh : string) (payload : json)
    (db : Sqlite.catalog) (coll : Mongo.collection)
    (kv : list (string * json)) (v r w t : json) (b rating : Z) :
  body_or_empty payload = JObj kv ->
  get kv "book_id" = Some v -> get kv "reviewer" = Some r ->
  get kv "rating" = Some w -> get kv "text" = Some t ->
  absent_or_blank kv "reviewer" = false ->
  absent_or_blank kv "text" = false ->
  int v = Some b -> int w = Some rating -> 1 <= rating <= 5 ->
  Sqlite.book_exists b db = true ->
  ~ In fresh (map Mongo.oid coll) ->
  add_review now fresh payload db coll =
  (Reply 201
     (ReviewMessage "Review added"
        (serialize_review (review_doc now fresh b rating r t))),
   (coll ++ [review_doc now fresh b rating r t])%list).
Proof.
  intros Hbody Hv Hr Hw Ht Br Bt Iv Iw Hrange Hex Hfresh.
  unfold add_review. rewrite Hbody, first_missing_obj.
  unfold review_fields. simpl find.
  rewrite (present_not_blank kv "book_id" v b Hv Iv), Br,
    (present_not_blank kv "rating" w rating Hw Iw), Bt.
  rewrite (parse_ids_obj kv v w Hv Hw), Iv, Iw.
  rewrite (proj2 (rating_in_range rating) Hrange), Hex.
  unfold data_item. rewrite Hr, Ht. simpl bind. cbv iota beta.
  fold (review_doc now fresh b rating r t).
  pose proof (insert_one_fresh (review_doc now fresh b rating r t) coll Hfresh)
    as Hi.
  rewrite Hi. apply find_one_inserted in Hi. destruct Hi as [_ [Hf _]].
  simpl in Hf. rewrite Hf. reflexivity.
Qed.








(** C10: when the reviewer or the text of a request is JSON null, while
    the other of the two passes the check of the loop, [book_id] and
    [rating] are valid and the book exists, the request is not refused: it
    is answered with 201, and the stored review holds the text ["None"] in
    the place of each null field. *)
Theorem add_review_null_is_None (now : Z) (fresh : string) (payload : json)
    (db : Sqlite.catalog) (coll : Mongo.collection)
    (kv : list (string * json)) (v r w t : json) (b rating : Z) :
  body_or_empty payload = JObj kv ->
  get kv "book_id" = Some v -> get kv "reviewer" = Some r ->
  get kv "rating" = Some w -> get kv "text" = Some t ->
  r = JNull \/ t = JNull ->
  absent_or_blank kv "reviewer" = false ->
  absent_or_blank kv "text" = false ->
  int v = Some b -> int w = Some rating -> 1 <= rating <= 5 ->
  Sqlite.book_exists b db = true ->
  ~ In fresh (map Mongo.oid coll) ->
  exists doc,
    add_review now fresh payload db coll =
      (Reply 201 (ReviewMessage "Review added" (serialize_review doc)),
       (coll ++ [doc])%list) /\
    Mongo.oid doc = fresh /\ Mongo.book_id doc = b /\
    Mongo.rating doc = rating /\
    (r = JNull -> Mongo.reviewer doc = "None") /\
    (t = JNull -> Mongo.text doc = "None").
Proof.
  intros Hbody Hv Hr Hw Ht _ Br Bt Iv Iw Hrange Hex Hfresh.
  exists (review_doc now fresh b rating r t). split.
  - eapply add_review_accepted; eassumption.
  - repeat split; intros ->; reflexivity.
Qed.

Lemma add_review_null_is_None_witness :
  exists doc,
    add_review 100 "64b7f0a1c2d3e4f5a6b7c8d9" null_reviewer_request
      dune_catalog [] =
      (Reply 201 (ReviewMessage "Review added" (serialize_review doc)),
       ([] ++ [doc])%list) /\
    Mongo.oid doc = "64b7f0a1c2d3e4f5a6b7c8d9" /\ Mongo.book_id doc = 1 /\
    Mongo.rating doc = 3 /\
    (JNull = JNull -> Mongo.reviewer doc = "None") /\
    (JStr "Fine" = JNull -> Mongo.text doc = "None").
Proof.
  apply (add_review_null_is_None 100 "64b7f0a1c2d3e4f5a6b7c8d9"
           null_reviewer_request dune_catalog []
           [("book_id", JInt 1); ("reviewer", JNull);
            ("rating", JInt 3); ("text", JStr "Fine")]
           (JInt 1) JNull (JInt 3) (JStr "Fine") 1 3);
    try reflexivity.
  - left. reflexivity.
  - lia.
  - simpl. tauto.
Defined.

(* ================================================================== *)
(** * Facts about keyed tables *)
(* ================================================================== *)

Lemma filter_nil {A : Type} (p : A -> bool) (l : list A) :
  (forall y, In y l -> p y = false) -> filter p l = [].
Proof.
  induction l as [|y l IH]; simpl; intros H; [reflexivity|].
  rewrite (H y (or_introl eq_refl)). apply IH. intros z Hz. apply H. tauto.
Qed.

Lemma filter_all {A : Type} (p : A -> bool) (l : list A) :
  (forall y, In y l -> p y = true) -> filter p l = l.
Proof.
  induction l as [|y l IH]; simpl; intros H; [reflexivity|].
  rewrite (H y (or_introl eq_refl)). f_equal. apply IH.
  intros z Hz. apply H. tauto.
Qed.

Section KeyFacts.
Context {A : Type} (key : A -> Z).

Lemma key_absent (l : list A) (k : Z) :
  ~ In k (map key l) -> forall y, In y l -> (key y =? k) = false.
Proof.
  intros Hn y Hy. apply Z.eqb_neq. intros E. apply Hn.
  rewrite <- E. apply in_map, Hy.
Qed.

Lemma filter_key_unique (l : list A) (x : A) :
  NoDup (map key l) -> In x l -> filter (fun y => key y =? key x) l = [x].
Proof.
  induction l as [|y l IH]; simpl; intros Hnd Hin; [tauto|].
  inversion Hnd as [|? ? Hy Hl]; subst.
  destruct Hin as [->|Hin].
  - rewrite Z.eqb_refl. f_equal. apply filter_nil.
    apply key_absent, Hy.
  - rewrite (IH Hl Hin).
    destruct (Z.eqb_spec (key y) (key x)) as [E|_]; [|reflexivity].
    exfalso. apply Hy. rewrite E. apply in_map, Hin.
Qed.

Lemma find_key_unique (l : list A) (x : A) :
  NoDup (map key l) -> In x l -> find (fun y => key y =? key x) l = Some x.
Proof.
  induction l as [|y l IH]; simpl; intros Hnd Hin; [tauto|].
  inversion Hnd as [|? ? Hy Hl]; subst.
  destruct Hin as [->|Hin].
  - rewrite Z.eqb_refl. reflexivity.
  - destruct (Z.eqb_spec (key y) (key x)) as [E|_]; [|apply IH; assumption].
    exfalso. apply Hy. rewrite E. apply in_map, Hin.
Qed.
End KeyFacts.

Lemma fold_max_ge (i : Z) (rest : list Z) :
  i <= fold_right Z.max i rest /\
  forall j, In j rest -> j <= fold_right Z.max i rest.
Proof.
  induction rest as [|k rest [IH1 IH2]]; cbn [fold_right In].
  - split; [lia | tauto].
  - split; [lia|]. intros j [<-|Hj]; [lia|]. specialize (IH2 j Hj). lia.
Qed.

(** A new rowid is not a rowid of the table. *)
Lemma next_rowid_fresh (ids : list Z) : ~ In (Sqlite.next_rowid ids) ids.
Proof.
  destruct ids as [|i rest]; cbn [Sqlite.next_rowid In]; [tauto|].
  destruct (fold_max_ge i rest) as [H1 H2].
  intros [H|H]; [lia|]. specialize (H2 _ H). lia.
Qed.

Lemma find_map_same {A : Type} (p : A -> bool) (f : A -> A) (l : list A) :
  (forall x, p (f x) = p x) ->
  find p (map f l) = option_map f (find p l).
Proof.
  intros H. induction l as [|x l IH]; simpl; [reflexivity|].
  rewrite H. destruct (p x); [reflexivity | exact IH].
Qed.

Lemma find_app_none {A : Type} (p : A -> bool) (l l' : list A) :
  find p l = None -> find p (l ++ l') = find p l'.
Proof.
  induction l as [|x l IH]; simpl; [reflexivity|].
  destruct (p x); [discriminate | exact IH].
Qed.

Lemma find_app_some {A : Type} (p : A -> bool) (l l' : list A) (x : A) :
  find p l = Some x -> find p (l ++ l') = Some x.
Proof.
  induction l as [|y l IH]; simpl; [discriminate|].
  destruct (p y); [tauto | exact IH].
Qed.

Lemma non_null_app {A : Type} (l l' : list (option A)) :
  Sqlite.non_null (l ++ l') = (Sqlite.non_null l ++ Sqlite.non_null l')%list.
Proof.
  induction l as [|[x|] l IH]; simpl; [reflexivity | f_equal; exact IH | exact IH].
Qed.

(* ================================================================== *)
(** * Facts about the joined query *)
(* ================================================================== *)

Lemma join_authors_nonempty (table : list Sqlite.author) (aid : Z) :
  Sqlite.join_authors table aid <> [].
Proof.
  unfold Sqlite.join_authors.
  destruct (filter _ table); simpl; discriminate.
Qed.

Lemma joined_nonempty (db : Sqlite.catalog) (b : Sqlite.book) :
  Sqlite.joined db b <> [].
Proof.
  unfold Sqlite.joined.
  destruct (filter _ (Sqlite.book_author db)) as [|l ls]; [discriminate|].
  simpl. intros H. apply app_eq_nil in H. destruct H as [H _].
  exact (join_authors_nonempty _ (snd l) H).
Qed.

Lemma joined_ext (db db' : Sqlite.catalog) (b b' : Sqlite.book) :
  Sqlite.book_author db = Sqlite.book_author db' ->
  Sqlite.authors db = Sqlite.authors db' ->
  Sqlite.book_id b = Sqlite.book_id b' ->
  Sqlite.joined db b = Sqlite.joined db' b'.
Proof.
  intros HL HA Hb. unfold Sqlite.joined, Sqlite.join_authors.
  rewrite HL, HA, Hb. reflexivity.
Qed.

Lemma in_non_null {A : Type} (l : list (option A)) (x : A) :
  In x (Sqlite.non_null l) <-> In (Some x) l.
Proof.
  induction l as [|[y|] l IH]; simpl.
  - tauto.
  - rewrite IH. split; intros [H|H]; auto; [left; congruence|].
    inversion H. auto.
  - rewrite IH. split; [auto|]. intros [H|H]; [discriminate | exact H].
Qed.

(** [fetchone()] of the query by [book_id]: the row of the first book with
    that id, aggregated over all its joined rows. *)
Lemma fetch_book_found (bid : Z) (db : Sqlite.catalog) (b0 : Sqlite.book) :
  find (fun x => Sqlite.book_id x =? bid) (Sqlite.books db) = Some b0 ->
  fetch_book bid db = Some (row_of b0 (Sqlite.joined db b0)).
Proof.
  unfold fetch_book, Sqlite.select_grouped.
  induction (Sqlite.books db) as [|x l IH]; simpl; [discriminate|].
  destruct (Sqlite.book_id x =? bid) eqn:E.
  - intros H. inversion H; subst b0. clear H.
    rewrite filter_all; [|reflexivity].
    pose proof (joined_nonempty db x) as Hne.
    destruct (Sqlite.joined db x); [contradiction | reflexivity].
  - intros H. rewrite filter_nil; [|reflexivity]. simpl. apply IH, H.
Qed.

Lemma existsb_find {A : Type} (p : A -> bool) (l : list A) :
  existsb p l = true -> exists x, find p l = Some x.
Proof.
  induction l as [|y l IH]; simpl; [discriminate|].
  destruct (p y); [eauto | exact IH].
Qed.

Lemma not_existsb_find {A : Type} (p : A -> bool) (l : list A) :
  existsb p l = false -> find p l = None.
Proof.
  induction l as [|y l IH]; simpl; [reflexivity|].
  destruct (p y); [discriminate | exact IH].
Qed.

Lemma flat_map_ext_in {A B : Type} (f g : A -> list B) (l : list A) :
  (forall x, In x l -> f x = g x) -> flat_map f l = flat_map g l.
Proof.
  induction l as [|x l IH]; simpl; intros H; [reflexivity|].
  rewrite (H x (or_introl eq_refl)). f_equal. apply IH.
  intros y Hy. apply H. tauto.
Qed.

(** ** Ensuring the author *)

Lemma ensure_author (a : string) (db : Sqlite.catalog) :
  exists au,
    In au (Sqlite.authors (Sqlite.insert_or_ignore_author a db)) /\
    Sqlite.name au = a /\
    Sqlite.select_author_id a (Sqlite.insert_or_ignore_author a db)
      = Some (Sqlite.author_id au) /\
    Sqlite.books (Sqlite.insert_or_ignore_author a db) = Sqlite.books db /\
    Sqlite.book_author (Sqlite.insert_or_ignore_author a db)
      = Sqlite.book_author db /\
    ((In a (map Sqlite.name (Sqlite.authors db)) /\
      Sqlite.insert_or_ignore_author a db = db) \/
     (~ In a (map Sqlite.name (Sqlite.authors db)) /\
      ~ In (Sqlite.author_id au) (map Sqlite.author_id (Sqlite.authors db)) /\
      Sqlite.authors (Sqlite.insert_or_ignore_author a db)
        = (Sqlite.authors db ++ [au])%list)).
Proof.
  unfold Sqlite.insert_or_ignore_author, Sqlite.select_author_id.
  destruct (existsb _ (Sqlite.authors db)) eqn:E.
  - destruct (existsb_find _ _ E) as [au Hf]. exists au.
    pose proof (find_some _ _ Hf) as [Hin Hn]. apply String.eqb_eq in Hn.
    rewrite Hf. repeat split; auto. left. split; [|reflexivity].
    rewrite <- Hn. apply in_map, Hin.
  - eexists. simpl.
    rewrite (find_app_none _ _ _ (not_existsb_find _ _ E)). simpl.
    rewrite String.eqb_refl. simpl.
    split; [apply in_or_app; right; left; reflexivity|].
    repeat split. right. split; [|split; [apply next_rowid_fresh|reflexivity]].
    intros Hin. apply in_map_iff in Hin. destruct Hin as [x [Hx Hin]].
    assert (Hc : existsb (fun a0 => String.eqb (Sqlite.name a0) a)
                   (Sqlite.authors db) = true).
    { apply existsb_exists. exists x. split; [exact Hin|].
      apply String.eqb_eq, Hx. }
    rewrite Hc in E. discriminate.
Qed.

(* ================================================================== *)
(** * The schema constraints are kept by every statement *)
(* ================================================================== *)

Lemma NoDup_snoc {A : Type} (l : list A) (x : A) :
  NoDup l -> ~ In x l -> NoDup (l ++ [x]).
Proof.
  induction 1 as [|y l Hy Hl IH]; simpl; intros Hx.
  - constructor; [tauto | constructor].
  - constructor.
    + intros H. apply in_app_or in H. destruct H as [H|[H|[]]]; [tauto|].
      apply Hx. left. symmetry. exact H.
    + apply IH. tauto.
Qed.


Lemma ok_ensure_author (a : string) (db : Sqlite.catalog) :
  catalog_ok db -> catalog_ok (Sqlite.insert_or_ignore_author a db).
Proof.
  intros [H1 H2 H3 H4 H5 H6 H7].
  destruct (ensure_author a db) as [au [_ [Hn [_ [HB [HL Hcase]]]]]].
  destruct Hcase as [[_ ->]|[Hfresh [Hid HA]]]; [constructor; assumption|].
  constructor; rewrite ?HB, ?HL, ?HA, ?map_app; simpl; try assumption.
  - apply NoDup_snoc; assumption.
  - apply NoDup_snoc; [assumption | rewrite Hn; exact Hfresh].
  - intros l Hl. apply in_or_app. left. apply H7, Hl.
Qed.

Lemma update_book_keys (year : option Z) (image : option string) (bid : Z)
    (db : Sqlite.catalog) :
  map Sqlite.book_id (Sqlite.books (Sqlite.update_book year image bid db))
    = map Sqlite.book_id (Sqlite.books db) /\
  map Sqlite.title (Sqlite.books (Sqlite.update_book year image bid db))
    = map Sqlite.title (Sqlite.books db).
Proof.
  simpl. rewrite !map_map. split; apply map_ext; intros b;
    destruct (Sqlite.book_id b =? bid); reflexivity.
Qed.

Lemma ok_update_book (year : option Z) (image : option string) (bid : Z)
    (db : Sqlite.catalog) :
  catalog_ok db -> catalog_ok (Sqlite.update_book year image bid db).
Proof.
  intros [H1 H2 H3 H4 H5 H6 H7].
  destruct (update_book_keys year image bid db) as [Hid Ht].
  constructor; rewrite ?Hid; try assumption.
  rewrite <- (map_map Sqlite.title Sqlite.fold), Ht, map_map. exact H4.
Qed.

Lemma link_present (bid aid : Z) (links : list (Z * Z)) :
  existsb (fun l => (fst l =? bid) && (snd l =? aid))%bool links = true <->
  In (bid, aid) links.
Proof.
  rewrite existsb_exists. split.
  - intros [[x y] [Hin H]]. simpl in H. apply andb_true_iff in H.
    destruct H as [Hx Hy]. apply Z.eqb_eq in Hx, Hy. subst. exact Hin.
  - intros H. exists (bid, aid). simpl. rewrite !Z.eqb_refl. auto.
Qed.

Lemma ok_link (bid aid : Z) (db : Sqlite.catalog) :
  catalog_ok db ->
  In bid (map Sqlite.book_id (Sqlite.books db)) ->
  In aid (map Sqlite.author_id (Sqlite.authors db)) ->
  catalog_ok (Sqlite.insert_or_ignore_link bid aid db).
Proof.
  intros [H1 H2 H3 H4 H5 H6 H7] Hb Ha. unfold Sqlite.insert_or_ignore_link.
  destruct (existsb _ (Sqlite.book_author db)) eqn:E;
    [constructor; assumption|].
  assert (Hn : ~ In (bid, aid) (Sqlite.book_author db)).
  { intros H. apply link_present in H. rewrite H in E. discriminate. }
  constructor; simpl; try assumption.
  - apply NoDup_snoc; assumption.
  - intros l Hl. apply in_app_or in Hl.
    destruct Hl as [Hl|[<-|[]]]; [apply H6, Hl | exact Hb].
  - intros l Hl. apply in_app_or in Hl.
    destruct Hl as [Hl|[<-|[]]]; [apply H7, Hl | exact Ha].
Qed.

Lemma title_taken (t : string) (l : list Sqlite.book) :
  existsb (fun b => Sqlite.nocase_eqb (Sqlite.title b) t) l = true <->
  In (Sqlite.fold t) (map (fun b => Sqlite.fold (Sqlite.title b)) l).
Proof.
  rewrite existsb_exists, in_map_iff. unfold Sqlite.nocase_eqb.
  split; intros [b [H1 H2]]; exists b.
  - apply String.eqb_eq in H2. auto.
  - split; [exact H2 | apply String.eqb_eq, H1].
Qed.

Lemma ok_insert_book (t : string) (year : option Z) (image : option string)
    (db db' : Sqlite.catalog) (bid : Z) :
  catalog_ok db ->
  Sqlite.insert_book t year image db = Some (bid, db') ->
  catalog_ok db' /\
  bid = Sqlite.next_rowid (map Sqlite.book_id (Sqlite.books db)) /\
  db' = {| Sqlite.books :=
             (Sqlite.books db ++
              [{| Sqlite.book_id := bid; Sqlite.title := t;
                  Sqlite.publication_year := year;
                  Sqlite.image_url := image |}])%list;
           Sqlite.authors := Sqlite.authors db;
           Sqlite.book_author := Sqlite.book_author db |}.
Proof.
  intros [H1 H2 H3 H4 H5 H6 H7]. unfold Sqlite.insert_book.
  destruct (existsb _ (Sqlite.books db)) eqn:E; [discriminate|].
  intros H. inversion H; subst. clear H.
  split; [|split; reflexivity].
  constructor; simpl; rewrite ?map_app; simpl; try assumption.
  - apply NoDup_snoc; [assumption | apply next_rowid_fresh].
  - apply NoDup_snoc; [assumption|]. intros Hin.
    apply title_taken in Hin. rewrite Hin in E. discriminate.
  - intros l Hl. apply in_or_app. left. apply H6, Hl.
Qed.

(* ================================================================== *)
(** * The authors of a book, before and after an upsert *)
(* ================================================================== *)

Lemma key_injective {A : Type} (key : A -> Z) (l : list A) (x y : A) :
  NoDup (map key l) -> In x l -> In y l -> key x = key y -> x = y.
Proof.
  intros Hnd Hx Hy E.
  pose proof (find_key_unique key l x Hnd Hx) as Fx.
  pose proof (find_key_unique key l y Hnd Hy) as Fy.
  rewrite E in Fx. rewrite Fx in Fy. inversion Fy. reflexivity.
Qed.

Lemma name_injective (l : list Sqlite.author) (x y : Sqlite.author) :
  NoDup (map Sqlite.name l) -> In x l -> In y l ->
  Sqlite.name x = Sqlite.name y -> x = y.
Proof.
  induction l as [|z l IH]; simpl; intros Hnd Hx Hy E; [tauto|].
  inversion Hnd as [|? ? Hz Hl]; subst.
  destruct Hx as [->|Hx], Hy as [->|Hy]; auto.
  - exfalso. apply Hz. rewrite E. apply in_map, Hy.
  - exfalso. apply Hz. rewrite <- E. apply in_map, Hx.
Qed.

Lemma join_authors_unique (table : list Sqlite.author)
    (au : Sqlite.author) :
  NoDup (map Sqlite.author_id table) ->
  In au table ->
  Sqlite.join_authors table (Sqlite.author_id au) = [Some (Sqlite.name au)].
Proof.
  intros Hnd Hin. unfold Sqlite.join_authors.
  rewrite (filter_key_unique Sqlite.author_id _ au Hnd Hin). reflexivity.
Qed.

(** Ensuring an author changes no joined row of a book. *)
Lemma joined_after_ensure (a : string) (db : Sqlite.catalog)
    (b : Sqlite.book) :
  catalog_ok db ->
  Sqlite.joined (Sqlite.insert_or_ignore_author a db) b = Sqlite.joined db b.
Proof.
  intros Hok.
  destruct (ensure_author a db) as [au [_ [_ [_ [_ [HL Hcase]]]]]].
  destruct Hcase as [[_ ->]|[_ [Hid HA]]]; [reflexivity|].
  unfold Sqlite.joined. rewrite HL.
  destruct (filter _ (Sqlite.book_author db)) as [|l ls] eqn:Ef;
    [reflexivity|].
  apply flat_map_ext_in. intros x Hx.
  assert (Hin : In x (Sqlite.book_author db)).
  { rewrite <- Ef in Hx. apply filter_In in Hx. tauto. }
  unfold Sqlite.join_authors. rewrite HA, filter_app. simpl.
  destruct (Z.eqb_spec (Sqlite.author_id au) (snd x)) as [E|_];
    [|rewrite app_nil_r; reflexivity].
  exfalso. apply Hid. rewrite E. apply (ok_link_author db Hok), Hin.
Qed.

(** The names a book gains when a link to [au] is ensured. *)
Lemma names_after_link (db : Sqlite.catalog) (b : Sqlite.book)
    (au : Sqlite.author) :
  NoDup (map Sqlite.author_id (Sqlite.authors db)) ->
  In au (Sqlite.authors db) ->
  let db' :=
    Sqlite.insert_or_ignore_link (Sqlite.book_id b) (Sqlite.author_id au) db in
  In (Sqlite.book_id b, Sqlite.author_id au) (Sqlite.book_author db') /\
  Sqlite.books db' = Sqlite.books db /\
  Sqlite.authors db' = Sqlite.authors db /\
  author_names db' b =
    if existsb
         (fun l => (fst l =? Sqlite.book_id b) &&
                   (snd l =? Sqlite.author_id au))%bool
         (Sqlite.book_author db)
    then author_names db b
    else (author_names db b ++ [Sqlite.name au])%list.
Proof.
  intros Hnd Hin. unfold Sqlite.insert_or_ignore_link.
  destruct (existsb _ (Sqlite.book_author db)) eqn:E; simpl.
  - apply link_present in E. auto.
  - split; [apply in_or_app; right; left; reflexivity|].
    split; [reflexivity|]. split; [reflexivity|].
    unfold author_names, Sqlite.joined. simpl.
    rewrite filter_app. simpl. rewrite Z.eqb_refl.
    destruct (filter _ (Sqlite.book_author db)) as [|l ls]; simpl.
    + rewrite app_nil_r, (join_authors_unique _ au Hnd Hin). reflexivity.
    + rewrite flat_map_app. simpl. rewrite app_nil_r.
      rewrite (join_authors_unique _ au Hnd Hin).
      rewrite app_assoc, non_null_app. reflexivity.
Qed.

(** A linked author is among the names of the book. *)
Lemma name_of_link (db : Sqlite.catalog) (b : Sqlite.book)
    (au : Sqlite.author) :
  NoDup (map Sqlite.author_id (Sqlite.authors db)) ->
  In au (Sqlite.authors db) ->
  In (Sqlite.book_id b, Sqlite.author_id au) (Sqlite.book_author db) ->
  In (Sqlite.name au) (author_names db b).
Proof.
  intros Hnd Hin Hl. unfold author_names. apply in_non_null.
  unfold Sqlite.joined.
  assert (Hf : In (Sqlite.book_id b, Sqlite.author_id au)
                 (filter (fun l => fst l =? Sqlite.book_id b)
                    (Sqlite.book_author db))).
  { apply filter_In. split; [exact Hl | apply Z.eqb_refl]. }
  destruct (filter _ (Sqlite.book_author db)) as [|l ls]; [destruct Hf|].
  apply in_flat_map. exists (Sqlite.book_id b, Sqlite.author_id au).
  split; [exact Hf|]. simpl.
  rewrite (join_authors_unique _ au Hnd Hin). left. reflexivity.
Qed.

(** Conversely, a name of the book is the name of a linked author. *)
Lemma link_of_name (db : Sqlite.catalog) (b : Sqlite.book) (a : string) :
  In a (author_names db b) ->
  exists au,
    In au (Sqlite.authors db) /\ Sqlite.name au = a /\
    In (Sqlite.book_id b, Sqlite.author_id au) (Sqlite.book_author db).
Proof.
  unfold author_names. rewrite in_non_null. unfold Sqlite.joined.
  destruct (filter _ (Sqlite.book_author db)) as [|l ls] eqn:Ef.
  - intros [H|[]]. discriminate.
  - intros H. apply in_flat_map in H. destruct H as [x [Hx Ha]].
    rewrite <- Ef in Hx. apply filter_In in Hx. destruct Hx as [Hx Hb].
    apply Z.eqb_eq in Hb. unfold Sqlite.join_authors in Ha.
    destruct (filter _ (Sqlite.authors db)) as [|u us] eqn:Eu.
    + destruct Ha as [Ha|[]]. discriminate.
    + apply in_map_iff in Ha. destruct Ha as [au [Hn Hau]].
      rewrite <- Eu in Hau. apply filter_In in Hau.
      destruct Hau as [Hau Hid]. apply Z.eqb_eq in Hid.
      exists au. split; [exact Hau|]. split; [congruence|].
      rewrite <- Hb, Hid. destruct x; exact Hx.
Qed.

(* ================================================================== *)
(** * POST /api/books: the two modes of the upsert *)
(* ================================================================== *)

Lemma update_book_books (year : Z) (image : option string)
    (db : Sqlite.catalog) (b : Sqlite.book) :
  NoDup (map Sqlite.book_id (Sqlite.books db)) ->
  In b (Sqlite.books db) ->
  Sqlite.books (Sqlite.update_book (Some year) image (Sqlite.book_id b) db) =
  map (fun x => if Sqlite.book_id x =? Sqlite.book_id b
                then updated b year image else x) (Sqlite.books db).
Proof.
  intros Hnd Hb. simpl. apply map_ext_in. intros x Hx.
  destruct (Z.eqb_spec (Sqlite.book_id x) (Sqlite.book_id b)) as [E|_];
    [|reflexivity].
  rewrite (key_injective Sqlite.book_id _ x b Hnd Hx Hb E). reflexivity.
Qed.

Lemma find_updated (year : Z) (image : option string)
    (l : list Sqlite.book) (b : Sqlite.book) :
  NoDup (map Sqlite.book_id l) -> In b l ->
  find (fun x => Sqlite.book_id x =? Sqlite.book_id b)
    (map (fun x => if Sqlite.book_id x =? Sqlite.book_id b
                   then updated b year image else x) l)
  = Some (updated b year image).
Proof.
  intros Hnd Hb. rewrite find_map_same.
  - rewrite (find_key_unique Sqlite.book_id l b Hnd Hb). simpl.
    rewrite Z.eqb_refl. reflexivity.
  - intros x. destruct (Z.eqb_spec (Sqlite.book_id x) (Sqlite.book_id b))
      as [E|NE]; simpl.
    + rewrite Z.eqb_refl. reflexivity.
    + apply Z.eqb_neq in NE. exact NE.
Qed.

(** The title is in the catalog: the book is updated and linked. *)
Lemma upsert_existing (t a : string) (year : Z) (image : option string)
    (db : Sqlite.catalog) (b : Sqlite.book) :
  catalog_ok db ->
  find (fun x => Sqlite.nocase_eqb (Sqlite.title x) t) (Sqlite.books db)
    = Some b ->
  exists db' au,
    upsert t a year image db =
      (Reply 200
         (BookMessage "Book already existed; updated/linked author."
            (row_of (updated b year image)
               (Sqlite.joined db' (updated b year image)))),
       db') /\
    catalog_ok db' /\
    Sqlite.books db' =
      map (fun x => if Sqlite.book_id x =? Sqlite.book_id b
                    then updated b year image else x) (Sqlite.books db) /\
    In au (Sqlite.authors db') /\ Sqlite.name au = a /\
    In (Sqlite.book_id b, Sqlite.author_id au) (Sqlite.book_author db') /\
    (In a (author_names db b) ->
     author_names db' (updated b year image) = author_names db b) /\
    (~ In a (author_names db b) ->
     author_names db' (updated b year image)
       = (author_names db b ++ [a])%list).
Proof.
  intros Hok Hfind.
  pose proof (find_some _ _ Hfind) as [Hb _].
  destruct (ensure_author a db) as [au [Hau [Hn [Hsel [HB [HL Hcase]]]]]].
  pose proof (ok_ensure_author a db Hok) as Hok1.
  pose proof (joined_after_ensure a db b Hok) as Hj1.
  remember (Sqlite.insert_or_ignore_author a db) as db1 eqn:Edb1.
  remember (Sqlite.update_book (Some year) image (Sqlite.book_id b) db1)
    as db2 eqn:Edb2.
  assert (Hok2 : catalog_ok db2) by (subst db2; apply ok_update_book, Hok1).
  assert (HA2 : Sqlite.authors db2 = Sqlite.authors db1)
    by (subst db2; reflexivity).
  assert (HL2 : Sqlite.book_author db2 = Sqlite.book_author db)
    by (subst db2; exact HL).
  assert (HB2 : Sqlite.books db2 =
                map (fun x => if Sqlite.book_id x =? Sqlite.book_id b
                              then updated b year image else x)
                  (Sqlite.books db)).
  { subst db2. rewrite <- HB. apply update_book_books.
    - apply (ok_book_ids _ Hok1).
    - rewrite HB. exact Hb. }
  assert (Hau2 : In au (Sqlite.authors db2)) by (rewrite HA2; exact Hau).
  destruct (names_after_link db2 (updated b year image) au
              (ok_author_ids _ Hok2) Hau2) as [Hlink [HB3 [HA3 Hnames]]].
  simpl Sqlite.book_id in Hlink, HB3, HA3, Hnames.
  assert (Hj2 : author_names db2 (updated b year image) = author_names db b).
  { unfold author_names. rewrite <- Hj1. f_equal. apply joined_ext.
    - rewrite HL2. symmetry. exact HL.
    - exact HA2.
    - reflexivity. }
  rewrite Hj2 in Hnames.
  exists (Sqlite.insert_or_ignore_link (Sqlite.book_id b)
            (Sqlite.author_id au) db2), au.
  split; [|split; [|split; [|split; [|split; [|split; [|split]]]]]].
  - unfold upsert. rewrite <- Edb1, Hsel. unfold Sqlite.select_book_id.
    rewrite HB, Hfind. simpl option_map. unfold update_existing.
    rewrite <- Edb2.
    rewrite (fetch_book_found (Sqlite.book_id b) _ (updated b year image));
      [reflexivity|].
    rewrite HB3, HB2. apply find_updated; [apply (ok_book_ids _ Hok) | exact Hb].
  - apply ok_link; [exact Hok2 | |].
    + rewrite HB2, map_map. apply in_map_iff. exists b. split; [|exact Hb].
      rewrite Z.eqb_refl. reflexivity.
    + apply in_map, Hau2.
  - rewrite HB3. exact HB2.
  - rewrite HA3. exact Hau2.
  - exact Hn.
  - exact Hlink.
  - intros Ha. rewrite Hnames.
    destruct (link_of_name db b a Ha) as [au' [Hau' [Hn' Hl']]].
    destruct Hcase as [[_ Hsame]|[Hfresh _]].
    + assert (au' = au).
      { apply (name_injective (Sqlite.authors db)).
        - apply (ok_names _ Hok).
        - exact Hau'.
        - rewrite <- Hsame. exact Hau.
        - congruence. }
      subst au'. rewrite HL2.
      rewrite (proj2 (link_present _ _ _) Hl'). reflexivity.
    + exfalso. apply Hfresh. rewrite <- Hn'. apply in_map, Hau'.
  - intros Hna. rewrite Hnames, HL2.
    destruct (existsb _ (Sqlite.book_author db)) eqn:E;
      [|rewrite Hn; reflexivity].
    exfalso. apply Hna. apply link_present in E.
    destruct Hcase as [[_ Hsame]|[_ [Hid _]]].
    + rewrite <- Hn. apply name_of_link;
        [apply (ok_author_ids _ Hok) | rewrite <- Hsame; exact Hau | exact E].
    + exfalso. apply Hid.
      apply (ok_link_author db Hok (Sqlite.book_id b, Sqlite.author_id au) E).
Qed.

Lemma find_none_existsb {A : Type} (p : A -> bool) (l : list A) :
  find p l = None -> existsb p l = false.
Proof.
  intros H. destruct (existsb p l) eqn:E; [|reflexivity].
  destruct (existsb_find p l E) as [x Hx]. congruence.
Qed.

(** The title is new: a book is inserted and linked. *)
Lemma upsert_new (t a : string) (year : Z) (image : option string)
    (db : Sqlite.catalog) :
  catalog_ok db ->
  find (fun x => Sqlite.nocase_eqb (Sqlite.title x) t) (Sqlite.books db)
    = None ->
  exists db' au,
    upsert t a year image db =
      (Reply 201
         (BookMessage "Book added successfully"
            (row_of (inserted db t year image)
               (Sqlite.joined db' (inserted db t year image)))),
       db') /\
    catalog_ok db' /\
    Sqlite.books db' = (Sqlite.books db ++ [inserted db t year image])%list /\
    ~ In (Sqlite.book_id (inserted db t year image))
        (map Sqlite.book_id (Sqlite.books db)) /\
    In au (Sqlite.authors db') /\ Sqlite.name au = a /\
    In (Sqlite.book_id (inserted db t year image), Sqlite.author_id au)
      (Sqlite.book_author db') /\
    author_names db' (inserted db t year image) = [a].
Proof.
  intros Hok Hfind.
  destruct (ensure_author a db) as [au [Hau [Hn [Hsel [HB [HL _]]]]]].
  pose proof (ok_ensure_author a db Hok) as Hok1.
  remember (Sqlite.insert_or_ignore_author a db) as db1 eqn:Edb1.
  destruct (Sqlite.insert_book t (Some year) image db1) as [[bid db2]|] eqn:Ei.
  2:{ exfalso. unfold Sqlite.insert_book in Ei. rewrite HB in Ei.
      rewrite (find_none_existsb _ _ Hfind) in Ei. discriminate. }
  destruct (ok_insert_book _ _ _ _ _ _ Hok1 Ei) as [Hok2 [Hbid Hdb2]].
  rewrite HB in Hbid, Hdb2. subst bid.
  fold (inserted db t year image) in Hdb2.
  assert (HB2 : Sqlite.books db2 =
                (Sqlite.books db ++ [inserted db t year image])%list)
    by (rewrite Hdb2; reflexivity).
  assert (HA2 : Sqlite.authors db2 = Sqlite.authors db1)
    by (rewrite Hdb2; reflexivity).
  assert (HL2 : Sqlite.book_author db2 = Sqlite.book_author db)
    by (rewrite Hdb2; exact HL).
  assert (Hfresh : ~ In (Sqlite.book_id (inserted db t year image))
                     (map Sqlite.book_id (Sqlite.books db)))
    by apply next_rowid_fresh.
  assert (Hau2 : In au (Sqlite.authors db2)) by (rewrite HA2; exact Hau).
  destruct (names_after_link db2 (inserted db t year image) au
              (ok_author_ids _ Hok2) Hau2) as [Hlink [HB3 [HA3 Hnames]]].
  assert (Hnolink :
    forall l, In l (Sqlite.book_author db) ->
              (fst l =? Sqlite.book_id (inserted db t year image)) = false).
  { intros l Hl. apply Z.eqb_neq. intros E. apply Hfresh. rewrite <- E.
    apply (ok_link_book db Hok l Hl). }
  assert (Hnone : author_names db2 (inserted db t year image) = []).
  { unfold author_names, Sqlite.joined. rewrite HL2.
    rewrite (filter_nil _ _ Hnolink). reflexivity. }
  assert (Habsent :
    existsb (fun l => (fst l =? Sqlite.book_id (inserted db t year image)) &&
                      (snd l =? Sqlite.author_id au))%bool
      (Sqlite.book_author db2) = false).
  { rewrite HL2. destruct (existsb _ (Sqlite.book_author db)) eqn:E;
      [|reflexivity].
    apply existsb_exists in E. destruct E as [l [Hl E]].
    rewrite (Hnolink l Hl) in E. discriminate. }
  rewrite Habsent, Hnone, Hn in Hnames. simpl app in Hnames.
  exists (Sqlite.insert_or_ignore_link
            (Sqlite.book_id (inserted db t year image))
            (Sqlite.author_id au) db2), au.
  split; [|split; [|split; [|split; [|split; [|split; [|split]]]]]].
  - unfold upsert. rewrite <- Edb1, Hsel. unfold Sqlite.select_book_id.
    rewrite HB, Hfind. simpl option_map. unfold insert_new. rewrite Ei.
    change (Sqlite.next_rowid (map Sqlite.book_id (Sqlite.books db)))
      with (Sqlite.book_id (inserted db t year image)).
    rewrite (fetch_book_found _ _ (inserted db t year image));
      [reflexivity|].
    rewrite HB3, HB2. rewrite find_app_none.
    + simpl. rewrite Z.eqb_refl. reflexivity.
    + apply not_existsb_find. destruct (existsb _ (Sqlite.books db)) eqn:E;
        [|reflexivity].
      apply existsb_exists in E. destruct E as [x [Hx E]].
      apply Z.eqb_eq in E. exfalso. apply Hfresh. rewrite <- E.
      apply in_map, Hx.
  - apply ok_link; [exact Hok2 | |].
    + rewrite HB2, map_app. apply in_or_app. right. left. reflexivity.
    + apply in_map, Hau2.
  - rewrite HB3. exact HB2.
  - exact Hfresh.
  - rewrite HA3. exact Hau2.
  - exact Hn.
  - exact Hlink.
  - exact Hnames.
Qed.


Lemma dune_catalog_ok : catalog_ok dune_catalog.
Proof.
  constructor; simpl.
  - repeat constructor; simpl; tauto.
  - repeat constructor; simpl; tauto.
  - repeat constructor; simpl; tauto.
  - repeat constructor; simpl; tauto.
  - repeat constructor; simpl; tauto.
  - intros x [<-|[]]. simpl. tauto.
  - intros x [<-|[]]. simpl. tauto.
Qed.



(** ** Validation of the upsert *)

(** [(data.get(k) or "").strip()] on a JSON object: the trimmed text, the
    empty text for an absent or falsy value, [AttributeError] for any
    other value. *)
Lemma stripped_field_obj (kv : list (string * json)) (k : string) :
  stripped_field (JObj kv) k =
  match get kv k with
  | Some (JStr s) => Ok (strip s)
  | Some x => if truthy x then Raise AttributeError else Ok ""
  | None => Ok ""
  end.
Proof.
  unfold stripped_field. simpl. destruct (get kv k) as [[]|]; reflexivity.
Qed.





(** ** The INSERT that finds its title taken *)

(** Within one request the INSERT cannot raise: the lookup that precedes
    it has just found no such title. *)
Lemma upsert_replies (t a : string) (year : Z) (image : option string)
    (db : Sqlite.catalog) :
  catalog_ok db ->
  exists status message row db',
    upsert t a year image db = (Reply status (BookMessage message row), db').
Proof.
  intros Hok.
  destruct (find (fun x => Sqlite.nocase_eqb (Sqlite.title x) t)
              (Sqlite.books db)) as [b|] eqn:Efind.
  - destruct (upsert_existing t a year image db b Hok Efind)
      as [db' [au [H _]]]. rewrite H. eauto.
  - destruct (upsert_new t a year image db Hok Efind)
      as [db' [au [H _]]]. rewrite H. eauto.
Qed.




(* ================================================================== *)
(** * [LIKE '%q%'] and substrings *)
(* ================================================================== *)






(** What [nocase_in] decides: after folding A..Z to a..z, the text is
    some text, then the query, then some text. *)
Lemma fold_app (a b : string) :
  Sqlite.fold (a ++ b) = Sqlite.fold a ++ Sqlite.fold b.
Proof.
  induction a as [|c a IH]; simpl; [reflexivity|].
  unfold Sqlite.fold in *. simpl. rewrite IH. reflexivity.
Qed.

Lemma prefix_by_fold (q s : string) :
  prefix_by Sqlite.like_eq q s = true <->
  exists r, Sqlite.fold s = Sqlite.fold q ++ r.
Proof.
  revert s. induction q as [|c q IH]; intros s.
  - simpl. split; [intros _; exists (Sqlite.fold s); reflexivity | auto].
  - destruct s as [|x s]; simpl.
    + split; [discriminate | intros [r H]; discriminate H].
    + rewrite andb_true_iff, IH. unfold Sqlite.like_eq.
      rewrite Ascii.eqb_eq. split.
      * intros [E [r H]]. exists r. unfold Sqlite.fold in *. simpl.
        rewrite E, H. reflexivity.
      * intros [r H]. unfold Sqlite.fold in *. simpl in H.
        inversion H. split; [congruence | exists r; assumption].
Qed.

Lemma nocase_in_spec (q s : string) :
  nocase_in q s = true <->
  exists l r, Sqlite.fold s = l ++ Sqlite.fold q ++ r.
Proof.
  unfold nocase_in. induction s as [|x s IH]; simpl.
  - rewrite orb_false_r, prefix_by_fold. split.
    + intros [r H]. exists "", r. exact H.
    + intros [l [r H]]. destruct l; [exists r; exact H | discriminate H].
  - rewrite orb_true_iff, IH, prefix_by_fold. split.
    + intros [[r H]|[l [r H]]].
      * exists "", r. exact H.
      * exists (String (Sqlite.fold_char x) l), r.
        unfold Sqlite.fold in *. simpl. rewrite H. reflexivity.
    + intros [l [r H]]. destruct l as [|y l].
      * left. exists r. exact H.
      * right. exists l, r. unfold Sqlite.fold in *. simpl in H.
        inversion H. reflexivity.
Qed.

(* ================================================================== *)
(** * [ORDER BY title COLLATE NOCASE] *)
(* ================================================================== *)





(* ================================================================== *)
(** * GET /api/books *)
(* ================================================================== *)











(* ================================================================== *)
(** * What an upsert never does *)
(* ================================================================== *)

Lemma grew_refl (db : Sqlite.catalog) : grew db db.
Proof.
  exists [], [], []. simpl. rewrite !app_nil_r.
  repeat split; try reflexivity; lia.
Qed.

Lemma author_grows (a : string) (db : Sqlite.catalog) :
  Sqlite.books (Sqlite.insert_or_ignore_author a db) = Sqlite.books db /\
  Sqlite.book_author (Sqlite.insert_or_ignore_author a db)
    = Sqlite.book_author db /\
  exists new_authors,
    Sqlite.authors (Sqlite.insert_or_ignore_author a db)
      = (Sqlite.authors db ++ new_authors)%list /\
    (length new_authors <= 1)%nat.
Proof.
  unfold Sqlite.insert_or_ignore_author.
  destruct (existsb _ (Sqlite.authors db)); simpl.
  - repeat split. exists []. rewrite app_nil_r. split; [reflexivity | simpl; lia].
  - repeat split. eexists. split; [reflexivity | simpl; lia].
Qed.

Lemma link_grows (bid aid : Z) (db : Sqlite.catalog) :
  Sqlite.books (Sqlite.insert_or_ignore_link bid aid db) = Sqlite.books db /\
  Sqlite.authors (Sqlite.insert_or_ignore_link bid aid db)
    = Sqlite.authors db /\
  exists new_links,
    Sqlite.book_author (Sqlite.insert_or_ignore_link bid aid db)
      = (Sqlite.book_author db ++ new_links)%list /\
    (length new_links <= 1)%nat.
Proof.
  unfold Sqlite.insert_or_ignore_link.
  destruct (existsb _ (Sqlite.book_author db)); simpl.
  - repeat split. exists []. rewrite app_nil_r. split; [reflexivity | simpl; lia].
  - repeat split. eexists. split; [reflexivity | simpl; lia].
Qed.

(** The store after [update_existing], whatever it answers. *)
Lemma update_existing_store (bid aid year : Z) (image : option string)
    (db : Sqlite.catalog) :
  snd (update_existing bid aid year image db) =
  Sqlite.insert_or_ignore_link bid aid
    (Sqlite.update_book (Some year) image bid db).
Proof.
  unfold update_existing. destruct (fetch_book _ _); reflexivity.
Qed.

(** The store after [insert_new] when the INSERT goes through. *)
Lemma insert_new_store (committed db db1 : Sqlite.catalog) (t : string)
    (aid year bid : Z) (image : option string) :
  Sqlite.insert_book t (Some year) image db = Some (bid, db1) ->
  snd (insert_new committed t aid year image db) =
  Sqlite.insert_or_ignore_link bid aid db1.
Proof.
  intros H. unfold insert_new. rewrite H.
  destruct (fetch_book _ _); reflexivity.
Qed.

Lemma upsert_grew (t a : string) (year : Z) (image : option string)
    (db : Sqlite.catalog) :
  grew db (snd (upsert t a year image db)).
Proof.
  unfold upsert.
  destruct (author_grows a db) as [HB [HL [na [HA Hna]]]].
  destruct (Sqlite.select_author_id a _) as [aid|]; [|apply grew_refl].
  destruct (Sqlite.select_book_id t _) as [bid|].
  - rewrite update_existing_store.
    destruct (link_grows bid aid
                (Sqlite.update_book (Some year) image bid
                   (Sqlite.insert_or_ignore_author a db)))
      as [HB2 [HA2 [nl [HL2 Hnl]]]].
    destruct (update_book_keys (Some year) image bid
                (Sqlite.insert_or_ignore_author a db)) as [Hid Ht].
    exists [], na, nl. rewrite HB2, HA2, HL2, Hid, Ht, HB. simpl.
    rewrite HA, HL, !app_nil_r.
    repeat split; try reflexivity; try assumption; lia.
  - destruct (Sqlite.insert_book t (Some year) image
                (Sqlite.insert_or_ignore_author a db))
      as [[bid db1]|] eqn:Ei.
    + rewrite (insert_new_store _ _ _ _ _ _ _ _ Ei).
      destruct (link_grows bid aid db1) as [HB2 [HA2 [nl [HL2 Hnl]]]].
      unfold Sqlite.insert_book in Ei.
      destruct (existsb _ _); [discriminate|]. inversion Ei; subst. clear Ei.
      simpl in HB2, HA2, HL2.
      exists [{| Sqlite.book_id :=
                   Sqlite.next_rowid
                     (map Sqlite.book_id
                        (Sqlite.books (Sqlite.insert_or_ignore_author a db)));
                 Sqlite.title := t;
                 Sqlite.publication_year := Some year;
                 Sqlite.image_url := image |}], na, nl.
      rewrite HB2, HA2, HL2, HB, HA, HL, !map_app.
      simpl. repeat split; try reflexivity; try assumption; lia.
    + unfold insert_new. rewrite Ei. apply grew_refl.
Qed.

(** X1: whatever the request, [add_book] only adds to the catalog: every
    book keeps its place, its [book_id] and its title, no author and no
    link is removed or changed, and at most one book, one author and one
    link are appended. *)
Theorem add_book_only_grows (payload : json) (db : Sqlite.catalog) :
  grew db (snd (add_book payload db)).
Proof.
  unfold add_book.
  destruct (book_fields _) as [[[[t a] y] i]|e]; [|apply grew_refl].
  destruct (String.eqb t "" || String.eqb a "")%bool; [apply grew_refl|].
  destruct (int (or_none y)) as [year|]; [|apply grew_refl].
  apply upsert_grew.
Qed.

Lemma upsert_keeps_schema (t a : string) (year : Z) (image : option string)
    (db : Sqlite.catalog) :
  catalog_ok db -> catalog_ok (snd (upsert t a year image db)).
Proof.
  intros Hok.
  destruct (find (fun x => Sqlite.nocase_eqb (Sqlite.title x) t)
              (Sqlite.books db)) as [b|] eqn:Efind.
  - destruct (upsert_existing t a year image db b Hok Efind)
      as [db' [au [H [Hok' _]]]]. rewrite H. exact Hok'.
  - destruct (upsert_new t a year image db Hok Efind)
      as [db' [au [H [Hok' _]]]]. rewrite H. exact Hok'.
Qed.

(** X2: whatever the request, [add_book] keeps the constraints of the
    schema: unique [book_id], [author_id], author name and NOCASE title,
    no duplicate link, and every link between an existing book and an
    existing author. *)
Theorem add_book_keeps_schema (payload : json) (db : Sqlite.catalog) :
  catalog_ok db -> catalog_ok (snd (add_book payload db)).
Proof.
  intros Hok. unfold add_book.
  destruct (book_fields _) as [[[[t a] y] i]|e]; [|exact Hok].
  destruct (String.eqb t "" || String.eqb a "")%bool; [exact Hok|].
  destruct (int (or_none y)) as [year|]; [|exact Hok].
  apply upsert_keeps_schema, Hok.
Qed.

Lemma add_book_keeps_schema_witness :
  catalog_ok (snd (add_book dune_again_request dune_catalog)).
Proof.
  apply (add_book_keeps_schema dune_again_request dune_catalog).
  exact dune_catalog_ok.
Defined.

(* ================================================================== *)
(** * Upserting a title twice *)
(* ================================================================== *)












(* ================================================================== *)
(** * GET /api/books for any query *)
(* ================================================================== *)










(* ================================================================== *)
(** * Reviews: adding, deleting, listing together *)
(* ================================================================== *)

Lemma parse_ids_range (data : json) (b r : Z) :
  parse_ids data = Some (b, r) -> 1 <= r <= 5.
Proof.
  unfold parse_ids.
  destruct (data_item data "book_id") as [v|]; [|discriminate].
  destruct (int v); [|discriminate].
  destruct (data_item data "rating") as [w|]; [|discriminate].
  destruct (int w) as [r'|]; [|discriminate].
  destruct ((r' <? 1) || (r' >? 5))%bool eqn:E; [discriminate|].
  intros H. inversion H; subst. apply rating_in_range, E.
Qed.

(** What a 201 of [add_review] tells, whatever the body was. *)
Lemma add_review_success (now : Z) (fresh : string) (payload : json)
    (db : Sqlite.catalog) (coll coll' : Mongo.collection) (body201 : body) :
  add_review now fresh payload db coll = (Reply 201 body201, coll') ->
  exists doc,
    Mongo.oid doc = fresh /\ Mongo.created_at doc = now /\
    1 <= Mongo.rating doc <= 5 /\
    Sqlite.book_exists (Mongo.book_id doc) db = true /\
    ~ In fresh (map Mongo.oid coll) /\
    coll' = (coll ++ [doc])%list /\
    body201 = ReviewMessage "Review added" (serialize_review doc).
Proof.
  unfold add_review.
  destruct (first_missing _ _) as [[f|]|e]; try discriminate.
  destruct (parse_ids _) as [[b r]|] eqn:Ep; [|discriminate].
  destruct (Sqlite.book_exists b db) eqn:Hex; [|discriminate].
  simpl negb. cbv iota.
  destruct (bind _ _) as [[rv tv]|e]; [|discriminate].
  destruct (Mongo.insert_one _ coll) as [c1|] eqn:Ei; [|discriminate].
  apply find_one_inserted in Ei. destruct Ei as [Hc [Hf Hn]].
  simpl in Hf, Hn. rewrite Hf. intros H. inversion H; subst.
  eexists. repeat split; try reflexivity; try assumption;
    simpl; apply (parse_ids_range _ _ _ Ep).
Qed.

Lemma delete_one_last (id : string) (c : Mongo.collection)
    (d : Mongo.review) :
  Mongo.oid d = id -> ~ In id (map Mongo.oid c) ->
  Mongo.delete_one id (c ++ [d])%list = (1, c).
Proof.
  intros Hd. induction c as [|x c IH]; simpl; intros Hn.
  - rewrite Hd, String.eqb_refl. reflexivity.
  - destruct (String.eqb_spec (Mongo.oid x) id) as [E|_]; [tauto|].
    rewrite IH; [reflexivity | tauto].
Qed.

(** X8: a review that was added (201) and is deleted by the [_id] the
    response carries is deleted (count 1), and the collection is again what
    it was before the review was added. *)
Theorem add_review_then_delete (now : Z) (fresh : string) (payload : json)
    (db : Sqlite.catalog) (coll coll' : Mongo.collection) (body201 : body) :
  add_review now fresh payload db coll = (Reply 201 body201, coll') ->
  Mongo.object_id fresh = Some fresh ->
  exists rv,
    body201 = ReviewMessage "Review added" rv /\
    delete_review (j_id rv) coll' = (Reply 200 (Deleted 1), coll).
Proof.
  intros Hadd Hid.
  destruct (add_review_success _ _ _ _ _ _ _ Hadd)
    as [doc [Ho [_ [_ [_ [Hn [Hc Hb]]]]]]].
  exists (serialize_review doc). split; [exact Hb|].
  simpl j_id. rewrite Ho. unfold delete_review. rewrite Hid, Hc.
  rewrite (delete_one_last fresh coll doc Ho Hn). reflexivity.
Qed.

Lemma add_review_then_delete_witness :
  exists rv,
    ReviewMessage "Review added" (serialize_review bob_review)
      = ReviewMessage "Review added" rv /\
    delete_review (j_id rv) [bob_review] = (Reply 200 (Deleted 1), []).
Proof.
  apply (add_review_then_delete 100 "64b7f0a1c2d3e4f5a6b7c8d9"
           padded_reviewer_request dune_catalog [] [bob_review]
           (ReviewMessage "Review added" (serialize_review bob_review)));
    reflexivity.
Defined.




Lemma add_review_store_cases (now : Z) (fresh : string) (payload : json)
    (db : Sqlite.catalog) (coll : Mongo.collection) :
  snd (add_review now fresh payload db coll) = coll \/
  exists doc,
    snd (add_review now fresh payload db coll) = (coll ++ [doc])%list /\
    Mongo.oid doc = fresh /\ ~ In fresh (map Mongo.oid coll) /\
    1 <= Mongo.rating doc <= 5 /\
    Sqlite.book_exists (Mongo.book_id doc) db = true.
Proof.
  destruct (add_review now fresh payload db coll) as [out coll'] eqn:E.
  destruct (add_review_keeps_store _ _ _ _ _ _ _ E) as [H|[rv H]];
    [left; exact H|].
  subst out. destruct (add_review_success _ _ _ _ _ _ _ E)
    as [doc [H1 [_ [H2 [H3 [H4 [H5 _]]]]]]].
  right. exists doc. simpl. auto.
Qed.

Lemma delete_review_store (rid : string) (coll : Mongo.collection) :
  snd (delete_review rid coll) = coll \/
  exists before d after,
    coll = (before ++ d :: after)%list /\
    snd (delete_review rid coll) = (before ++ after)%list.
Proof.
  unfold delete_review.
  destruct (Mongo.object_id rid) as [id|]; [|left; reflexivity].
  destruct (delete_one_cases id coll)
    as [[before [d [after [Hc [_ [_ Hdel]]]]]]|[_ Hdel]]; rewrite Hdel.
  - right. exists before, d, after. auto.
  - left. reflexivity.
Qed.

(** X10: the two routes that write reviews keep the [_id] of the documents
    unique, whatever the request: [add_review] stores a document only under
    an id no document has, and [delete_review] only removes. *)
Theorem reviews_keep_unique_ids (now : Z) (fresh rid : string)
    (payload : json) (db : Sqlite.catalog) (coll : Mongo.collection) :
  ids_unique coll ->
  ids_unique (snd (add_review now fresh payload db coll)) /\
  ids_unique (snd (delete_review rid coll)).
Proof.
  unfold ids_unique. intros Hu. split.
  - destruct (add_review_store_cases now fresh payload db coll)
      as [->|[doc [-> [Ho [Hn _]]]]]; [exact Hu|].
    rewrite map_app. simpl. apply NoDup_snoc; [exact Hu|].
    rewrite Ho. exact Hn.
  - destruct (delete_review_store rid coll)
      as [->|[before [d [after [Hc ->]]]]]; [exact Hu|].
    rewrite Hc, map_app in Hu. simpl in Hu.
    rewrite map_app. apply (NoDup_remove_1 _ _ _ Hu).
Qed.

Lemma reviews_keep_unique_ids_witness :
  ids_unique
    (snd (add_review 300 "64b7f0a1c2d3e4f5a6b7c8db" fractional_rating_request
            dune_catalog [bob_review])) /\
  ids_unique (snd (delete_review "64b7f0a1c2d3e4f5a6b7c8d9" [bob_review])).
Proof.
  apply (reviews_keep_unique_ids 300 "64b7f0a1c2d3e4f5a6b7c8db"
           "64b7f0a1c2d3e4f5a6b7c8d9" fractional_rating_request dune_catalog
           [bob_review]).
  unfold ids_unique. simpl. repeat constructor. simpl. tauto.
Defined.

Lemma book_exists_in (bid : Z) (db : Sqlite.catalog) :
  Sqlite.book_exists bid db = true <->
  In bid (map Sqlite.book_id (Sqlite.books db)).
Proof.
  unfold Sqlite.book_exists. rewrite existsb_exists, in_map_iff.
  split; intros [b [H1 H2]]; exists b.
  - apply Z.eqb_eq in H2. auto.
  - split; [exact H2 | apply Z.eqb_eq, H1].
Qed.

Lemma grew_keeps_books (db db' : Sqlite.catalog) (bid : Z) :
  grew db db' ->
  Sqlite.book_exists bid db = true -> Sqlite.book_exists bid db' = true.
Proof.
  intros [nb [na [nl [Hid _]]]]. rewrite !book_exists_in, Hid.
  intros H. apply in_or_app. left. exact H.
Qed.

(** X11: no route breaks what [add_review] checks at insertion: if every
    stored review has a rating from 1 to 5 and the [book_id] of a book of
    the catalog, this still holds after any [add_book], any [add_review]
    and any [delete_review] (no route removes a book). *)
Theorem reviews_stay_valid (now : Z) (fresh rid : string)
    (book_payload review_payload : json) (db : Sqlite.catalog)
    (coll : Mongo.collection) :
  reviews_ok db coll ->
  reviews_ok (snd (add_book book_payload db)) coll /\
  reviews_ok db (snd (add_review now fresh review_payload db coll)) /\
  reviews_ok db (snd (delete_review rid coll)).
Proof.
  unfold reviews_ok. intros Hok. split; [|split].
  - intros d Hd. destruct (Hok d Hd) as [H1 H2]. split; [exact H1|].
    apply (grew_keeps_books db); [|exact H2].
    unfold add_book.
    destruct (book_fields _) as [[[[t a] y] i]|e]; [|apply grew_refl].
    destruct (String.eqb t "" || String.eqb a "")%bool; [apply grew_refl|].
    destruct (int (or_none y)) as [year|]; [|apply grew_refl].
    apply upsert_grew.
  - destruct (add_review_store_cases now fresh review_payload db coll)
      as [->|[doc [-> [_ [_ [Hr Hb]]]]]]; [exact Hok|].
    intros d Hd. apply in_app_or in Hd.
    destruct Hd as [Hd|[<-|[]]]; [apply Hok, Hd | split; assumption].
  - destruct (delete_review_store rid coll)
      as [->|[before [d0 [after [Hc ->]]]]]; [exact Hok|].
    intros d Hd. apply Hok. rewrite Hc. apply in_app_or in Hd.
    apply in_or_app. destruct Hd; [left | right; right]; assumption.
Qed.

Lemma reviews_stay_valid_witness :
  reviews_ok (snd (add_book dune_again_request dune_catalog)) [bob_review] /\
  reviews_ok dune_catalog
    (snd (add_review 300 "64b7f0a1c2d3e4f5a6b7c8db" fractional_rating_request
            dune_catalog [bob_review])) /\
  reviews_ok dune_catalog
    (snd (delete_review "64b7f0a1c2d3e4f5a6b7c8d9" [bob_review])).
Proof.
  apply (reviews_stay_valid 300 "64b7f0a1c2d3e4f5a6b7c8db"
           "64b7f0a1c2d3e4f5a6b7c8d9" dune_again_request
           fractional_rating_request dune_catalog [bob_review]).
  intros d [<-|[]]. simpl. split; [lia | reflexivity].
Defined.

(* ================================================================== *)
(** * [manage.py]: seeding the catalog *)
(* ================================================================== *)



Lemma grew_trans (db1 db2 db3 : Sqlite.catalog) (bid : Z) :
  Sqlite.book_exists bid db1 = true ->
  grew db1 db2 -> grew db2 db3 -> Sqlite.book_exists bid db3 = true.
Proof.
  intros H H12 H23.
  apply (grew_keeps_books db2 db3 bid H23).
  apply (grew_keeps_books db1 db2 bid H12 H).
Qed.












